(** * Referral tracker: session adapter, password reset, dashboards, row policies

    A shallow embedding of the client code (the [useAuth] adapter, the
    [ResetPassword] view, the referrer dashboard and the admin panel) and of
    the row-level policies of the [referrals] table.

    Conventions of the embedding.
    - The page is a record [World]: the parts of [window.location] the code
      reads, [localStorage], the four React state cells of [AuthProvider],
      and a [trace] of everything the code sends outwards, oldest first
      (provider calls, store requests, notifications, timers, assignments to
      [window.location.href]).  One trace keeps the order between effects of
      different kinds.
    - Asynchronous code runs to completion in program order.  What a remote
      call answers is an argument of the function that awaits it.
    - [console] output is not modelled. *)

From Stdlib Require Import ZArith.
From stdpp Require Import base strings list gmap sorting.

Local Open Scope string_scope.
Local Open Scope list_scope.

(** ** JavaScript values, as far as the code inspects them *)

Module Js.

(** What [JSON.parse] can return, plus [undefined].  Numbers are kept as
    integers: the code only ever tests a parsed value for truthiness and
    reads two of its properties. *)
#[local] Unset Elimination Schemes.
Inductive value : Type :=
| Null
| Undefined
| Bool (b : bool)
| Num (z : Z)
| Str (s : string)
| Arr (items : list value)
| Obj (fields : list (string * value)).
#[local] Set Elimination Schemes.

(** [s ? .. : ..] on a string: the empty string is falsy. *)
Definition string_truthy (s : string) : bool := negb (String.eqb s "").

(** [v ? .. : ..] *)
Definition truthy (v : value) : bool :=
  match v with
  | Null | Undefined => false
  | Bool b => b
  | Num z => negb (Z.eqb z 0)
  | Str s => string_truthy s
  | Arr _ | Obj _ => true
  end.

Fixpoint assoc (k : string) (fields : list (string * value)) : value :=
  match fields with
  | [] => Undefined
  | (k', v) :: rest => if String.eqb k k' then v else assoc k rest
  end.

(** [v?.k]; also [v.k] wherever the code has already found [v] truthy. *)
Definition prop (v : value) (k : string) : value :=
  match v with
  | Obj fields => assoc k fields
  | _ => Undefined
  end.

(** [string | null] read as a condition, as [URLSearchParams.get] and
    [localStorage.getItem] return it. *)
Definition nullable_truthy (o : option string) : bool :=
  match o with
  | Some s => string_truthy s
  | None => false
  end.

(** Strings are kept as the bytes of their UTF-8 text, as the source files
    hold them.  JavaScript counts and indexes a string by UTF-16 code
    units: a code point below [0x10000] (one to three bytes) is one unit,
    any other (four bytes) is a surrogate pair.  A surrogate on its own is
    kept as its three bytes.  [decode] reads the bytes with [pending]
    continuation bytes still to come for the code point [cp]; a
    continuation byte with no lead before it is not text and gives
    nothing. *)
Fixpoint decode (pending : nat) (cp : N) (s : string) : list N :=
  match s with
  | EmptyString => []
  | String b rest =>
      let n := Ascii.N_of_ascii b in
      match pending with
      | O =>
          if (n <? 0x80)%N then n :: decode 0 0%N rest
          else if (n <? 0xC0)%N then decode 0 0%N rest
          else if (n <? 0xE0)%N then decode 1 (N.land n 0x1F) rest
          else if (n <? 0xF0)%N then decode 2 (N.land n 0x0F) rest
          else decode 3 (N.land n 0x07) rest
      | S p =>
          let cp := N.lor (N.shiftl cp 6) (N.land n 0x3F) in
          match p with
          | O => cp :: decode 0 0%N rest
          | S _ => decode p cp rest
          end
      end
  end.

Definition code_points (s : string) : list N := decode 0 0%N s.

Definition utf16 (cp : N) : list N :=
  if (cp <? 0x10000)%N then [cp]
  else [(0xD800 + N.shiftr (cp - 0x10000) 10)%N; (0xDC00 + N.land (cp - 0x10000) 0x3FF)%N].

Definition code_units (s : string) : list N := code_points s ≫= utf16.

(** [s.length] *)
Definition length (s : string) : nat := List.length (code_units s).

(** The one-unit string [s[i]] for the unit [u]. *)
Definition unit_string (u : N) : string :=
  let byte n := Ascii.ascii_of_N n in
  if (u <? 0x80)%N then String (byte u) ""
  else if (u <? 0x800)%N then
    String (byte (N.lor 0xC0 (N.shiftr u 6)))
      (String (byte (N.lor 0x80 (N.land u 0x3F))) "")
  else
    String (byte (N.lor 0xE0 (N.shiftr u 12)))
      (String (byte (N.lor 0x80 (N.land (N.shiftr u 6) 0x3F)))
         (String (byte (N.lor 0x80 (N.land u 0x3F))) "")).

End Js.

(** ** The hosted backend's client: types and calls *)

Module Supabase.

Record User := { id : string }.

Record Session := {
  access_token : string;
  refresh_token : string;
  user : User
}.

(** An error object; the code reads only its [message]. *)
Record AuthError := { message : string }.

(** Modelled from the spec: the type of the provider's sign-up answer is
    declared by the client library, outside this repository; the spec gives
    it as "user+session|error".  The code destructures it as
    [{ data, error }] and reads [data.user] and [data.session]. *)
Inductive AuthResponse : Type :=
| AuthData (user : option User) (session : option Session)
| AuthFailure (error : AuthError).

Definition response_error (r : AuthResponse) : option AuthError :=
  match r with
  | AuthFailure e => Some e
  | AuthData _ _ => None
  end.

Definition data_user (r : AuthResponse) : option User :=
  match r with
  | AuthData u _ => u
  | AuthFailure _ => None
  end.

Definition data_session (r : AuthResponse) : option Session :=
  match r with
  | AuthData _ s => s
  | AuthFailure _ => None
  end.

(** The session object as a JavaScript value: what [JSON.stringify] is
    given, and what [recoverySession || session] evaluates to when the
    ambient session is taken. *)
Definition user_value (u : User) : Js.value :=
  Js.Obj [("id", Js.Str (id u))].

Definition session_value (s : option Session) : Js.value :=
  match s with
  | None => Js.Null
  | Some s =>
      Js.Obj [("access_token", Js.Str (access_token s));
              ("refresh_token", Js.Str (refresh_token s));
              ("user", user_value (user s))]
  end.

(** [supabase.auth.*] calls, with the arguments the code passes. *)
Inductive AuthCall : Type :=
| signUp_call (email password emailRedirectTo name : string)
| signInWithPassword_call (email password : string)
| signOut_call
| resetPasswordForEmail_call (email redirectTo : string)
| updateUser_call (password : string)
| setSession_call (access_token refresh_token : Js.value)
| getSession_call.

(** The [newReferral] fields the two add-referral forms edit. *)
Record ReferralForm := {
  client_name : string;
  client_email : string;
  client_phone : string;
  client_address : string
}.

(** The form as both components reset it after a successful insert. *)
Definition empty_form : ReferralForm :=
  {| client_name := ""; client_email := ""; client_phone := ""; client_address := "" |}.

(** The object given to [insert]: the form's fields under a [user_id],
    which is [None] where the code passes [undefined]. *)
Record ReferralInsert := {
  insert_user_id : option string;
  insert_form : ReferralForm
}.

(** [supabase.from(table)...] requests. *)
Inductive StoreRequest : Type :=
| select_role (user_id : string)
| select_referrals_eq_user (user_id : option string)
| select_referrals_all
| select_profiles_all
| select_profile_eq_user (user_id : option string)
| insert_referral (row : ReferralInsert)
| update_profile (id payment_method : string) (payment_details : Js.value).

End Supabase.

Import Supabase.

(** ** The page *)

(** A notification's [variant]: left out, or destructive. *)
Inductive Variant := plain | destructive.

Record Toast := {
  title : string;
  description : string;
  variant : Variant
}.

(** What a [setTimeout] callback of the code does when it fires. *)
Inductive Callback : Type :=
| fetch_user_role (user_id : string)
| redirect_to (href : string).

Inductive Effect : Type :=
| Auth (c : AuthCall)
| Store (r : StoreRequest)
| Toasted (t : Toast)
| SetTimeout (cb : Callback) (ms : Z)
| LocationHref (href : string).

Record World := {
  (** [window.location.search], as text *)
  location_search : string;
  (** the entries of [new URLSearchParams(window.location.search)], decoded,
      in the order of the text *)
  location_params : list (string * string);
  location_origin : string;
  localStorage : gmap string string;
  (** [AuthProvider]'s state cells *)
  user : option User;
  session : option Session;
  userRole : option string;
  loading : bool;
  trace : list Effect
}.

Definition set_localStorage (f : gmap string string → gmap string string) (w : World) : World :=
  {| location_search := location_search w; location_params := location_params w;
     location_origin := location_origin w; localStorage := f (localStorage w);
     user := user w; session := session w; userRole := userRole w;
     loading := loading w; trace := trace w |}.

Definition set_user (u : option User) (w : World) : World :=
  {| location_search := location_search w; location_params := location_params w;
     location_origin := location_origin w; localStorage := localStorage w;
     user := u; session := session w; userRole := userRole w;
     loading := loading w; trace := trace w |}.

Definition set_session (s : option Session) (w : World) : World :=
  {| location_search := location_search w; location_params := location_params w;
     location_origin := location_origin w; localStorage := localStorage w;
     user := user w; session := s; userRole := userRole w;
     loading := loading w; trace := trace w |}.

Definition set_userRole (r : option string) (w : World) : World :=
  {| location_search := location_search w; location_params := location_params w;
     location_origin := location_origin w; localStorage := localStorage w;
     user := user w; session := session w; userRole := r;
     loading := loading w; trace := trace w |}.

Definition set_loading (b : bool) (w : World) : World :=
  {| location_search := location_search w; location_params := location_params w;
     location_origin := location_origin w; localStorage := localStorage w;
     user := user w; session := session w; userRole := userRole w;
     loading := b; trace := trace w |}.

Definition add_effect (e : Effect) (w : World) : World :=
  {| location_search := location_search w; location_params := location_params w;
     location_origin := location_origin w; localStorage := localStorage w;
     user := user w; session := session w; userRole := userRole w;
     loading := loading w; trace := trace w ++ [e] |}.

(** ** A state monad over the page *)

Definition M (A : Type) : Type := World → A * World.

#[global] Instance M_ret : MRet M := λ A a w, (a, w).
#[global] Instance M_bind : MBind M :=
  λ A B f m w, let '(a, w') := m w in f a w'.

Definition gets {A} (f : World → A) : M A := λ w, (f w, w).
Definition modify (f : World → World) : M unit := λ w, ((), f w).
Definition emit (e : Effect) : M unit := modify (add_effect e).
Definition when (b : bool) (m : M unit) : M unit := if b then m else mret ().

(** The world a computation ends in, and what it sent out on the way. *)
Definition exec {A} (m : M A) (w : World) : World := snd (m w).
Definition eval {A} (m : M A) (w : World) : A := fst (m w).
Definition issued {A} (m : M A) (w : World) : list Effect :=
  drop (length (trace w)) (trace (exec m w)).

(** Platform and library calls. *)
Definition localStorage_getItem (k : string) : M (option string) :=
  gets (λ w, localStorage w !! k).
Definition localStorage_setItem (k v : string) : M unit :=
  modify (set_localStorage (insert k v)).
Definition localStorage_removeItem (k : string) : M unit :=
  modify (set_localStorage (delete k)).
Definition toast (t : Toast) : M unit := emit (Toasted t).
Definition setTimeout (cb : Callback) (ms : Z) : M unit := emit (SetTimeout cb ms).
Definition assign_location_href (href : string) : M unit := emit (LocationHref href).
Definition setUser (u : option User) : M unit := modify (set_user u).
Definition setSession (s : option Session) : M unit := modify (set_session s).
Definition setUserRole (r : option string) : M unit := modify (set_userRole r).
Definition setLoading (b : bool) : M unit := modify (set_loading b).

(** [URLSearchParams.get]: the first value under the name, or [null]. *)
Fixpoint URLSearchParams_get (params : list (string * string)) (name : string) : option string :=
  match params with
  | [] => None
  | (k, v) :: rest => if String.eqb k name then Some v else URLSearchParams_get rest name
  end.

(** ** src/hooks/useAuth.tsx: the session adapter *)

Module useAuth.

(** The condition both [AuthProvider] and [ResetPassword] compute from the
    query parameters: [get('type') === 'recovery' || get('access_token') ||
    get('refresh_token')], read as a condition. *)
Definition isRecoveryFlow (urlParams : list (string * string)) : bool :=
  bool_decide (URLSearchParams_get urlParams "type" = Some "recovery")
  || Js.nullable_truthy (URLSearchParams_get urlParams "access_token")
  || Js.nullable_truthy (URLSearchParams_get urlParams "refresh_token").

Definition supabase_auth_signUp (email password emailRedirectTo name : string)
    (answer : AuthResponse) : M AuthResponse :=
  emit (Auth (signUp_call email password emailRedirectTo name)) ;; mret answer.

Definition supabase_auth_signInWithPassword (email password : string)
    (answer : option AuthError) : M (option AuthError) :=
  emit (Auth (signInWithPassword_call email password)) ;; mret answer.

Definition supabase_auth_signOut (answer : option AuthError) : M (option AuthError) :=
  emit (Auth signOut_call) ;; mret answer.

Definition supabase_auth_resetPasswordForEmail (email redirectTo : string)
    (answer : option AuthError) : M (option AuthError) :=
  emit (Auth (resetPasswordForEmail_call email redirectTo)) ;; mret answer.

Definition supabase_auth_updateUser (password : string)
    (answer : option AuthError) : M (option AuthError) :=
  emit (Auth (updateUser_call password)) ;; mret answer.

Definition supabase_auth_setSession (access refresh : Js.value) : M unit :=
  emit (Auth (setSession_call access refresh)).

(** The role lookup both session paths defer with [setTimeout(.., 0)]:
    [roleData] is the row the store answers, [null] when it answers none. *)
Definition fetchUserRole (user_id : string) (roleData : option string) : M unit :=
  emit (Store (select_role user_id)) ;;
  setUserRole (match roleData with
               | Some role => if Js.string_truthy role then Some role else None
               | None => None
               end) ;;
  setLoading false.

(** The body of the mount effect up to the subscription: it fixes
    [isRecoveryFlow] for the listener, and asks for the current session
    only outside a recovery flow. *)
Definition useEffect_mount : M bool :=
  urlParams ← gets location_params;
  let flow := isRecoveryFlow urlParams in
  (if negb flow then emit (Auth getSession_call) else setLoading false) ;;
  mret flow.

(** [getSession().then(...)] *)
Definition getSession_then (current : option Session) : M unit :=
  setSession current ;;
  setUser (Supabase.user <$> current) ;;
  match current with
  | Some s => setTimeout (fetch_user_role (id (Supabase.user s))) 0
  | None => setLoading false
  end.

Definition signIn (email password : string) (answer : option AuthError) : M (option AuthError) :=
  error ← supabase_auth_signInWithPassword email password answer;
  match error with
  | Some e =>
      toast {| title := "Sign in failed"; description := message e;
               variant := destructive |}
  | None => mret ()
  end ;;
  mret error.

Definition signOut (answer : option AuthError) : M unit :=
  supabase_auth_signOut answer ;;
  setUser None ;;
  setSession None ;;
  setUserRole None.

Definition resetPassword (email : string) (answer : option AuthError) : M (option AuthError) :=
  origin ← gets location_origin;
  error ← supabase_auth_resetPasswordForEmail email (origin +:+ "/reset-password") answer;
  match error with
  | Some e =>
      toast {| title := "Reset failed"; description := message e;
               variant := destructive |}
  | None =>
      toast {| title := "Check your email";
               description := "We've sent you a password reset link that expires in 15 minutes.";
               variant := plain |}
  end ;;
  mret error.

Definition account_exists_error : AuthError :=
  {| message := "You already have an account with this email. Please sign in instead." |}.

Definition signUp (email password name : string) (answer : AuthResponse) : M (option AuthError) :=
  origin ← gets location_origin;
  let redirectUrl := origin +:+ "/" in
  r ← supabase_auth_signUp email password redirectUrl name answer;
  match response_error r with
  | Some error =>
      toast {| title := "Sign up failed"; description := message error;
               variant := destructive |} ;;
      mret (Some error)
  | None =>
      if bool_decide (is_Some (data_user r)) && negb (bool_decide (is_Some (data_session r))) then
        let customError := account_exists_error in
        toast {| title := "Account already exists"; description := message customError;
                 variant := destructive |} ;;
        mret (Some customError)
      else
        toast {| title := "Check your email";
                 description := "Please check your email for a confirmation link.";
                 variant := plain |} ;;
        mret None
  end.

Section json.

(** [JSON.stringify] and [JSON.parse] are the platform's; [JSON_parse]
    answers [None] where the platform throws a [SyntaxError]. *)
Variable JSON_stringify : Js.value → string.
Variable JSON_parse : string → option Js.value.

(** The listener given to [onAuthStateChange].  [flow] is the
    [isRecoveryFlow] of the mount; [signOut_answer] is what the provider
    answers the sign-out of the interception (the code drops it). *)
Definition onAuthStateChange (flow : bool) (event : string) (delivered : option Session)
    (signOut_answer : option AuthError) : M unit :=
  if flow && bool_decide (event = "SIGNED_IN") then
    localStorage_setItem "recovery_session" (JSON_stringify (session_value delivered)) ;;
    supabase_auth_signOut signOut_answer ;;
    search ← gets location_search;
    assign_location_href ("/reset-password" +:+ search)
  else
    setSession delivered ;;
    setUser (Supabase.user <$> delivered) ;;
    match delivered with
    | Some s =>
        if negb flow then setTimeout (fetch_user_role (id (Supabase.user s))) 0
        else setUserRole None ;; setLoading false
    | None => setUserRole None ;; setLoading false
    end.

(** [recoverySession] after the guarded parse of the stored text. *)
Definition parse_recovery_session (recoverySessionStr : option string) : Js.value :=
  match recoverySessionStr with
  | Some str =>
      if Js.string_truthy str then
        match JSON_parse str with
        | Some v => v
        | None => Js.Null
        end
      else Js.Null
  | None => Js.Null
  end.

Definition no_valid_session_error : AuthError :=
  {| message := "No valid session found for password reset" |}.

Definition updatePassword (password : string) (updateUser_answer : option AuthError)
    : M (option AuthError) :=
  recoverySessionStr ← localStorage_getItem "recovery_session";
  let recoverySession := parse_recovery_session recoverySessionStr in
  ambient ← gets session;
  let sessionToUse :=
    if Js.truthy recoverySession then recoverySession else session_value ambient in
  if negb (Js.truthy (Js.prop sessionToUse "access_token")) then
    let error := no_valid_session_error in
    toast {| title := "Password update failed"; description := message error;
             variant := destructive |} ;;
    mret (Some error)
  else
    when (Js.truthy recoverySession)
      (supabase_auth_setSession (Js.prop recoverySession "access_token")
                                (Js.prop recoverySession "refresh_token")) ;;
    error ← supabase_auth_updateUser password updateUser_answer;
    localStorage_removeItem "recovery_session" ;;
    match error with
    | Some e =>
        toast {| title := "Password update failed"; description := message e;
                 variant := destructive |}
    | None =>
        toast {| title := "Password updated";
                 description := "Your password has been successfully updated.";
                 variant := plain |}
    end ;;
    mret error.

End json.

End useAuth.


(** A timer of the page fires: the role lookup deferred by the session
    paths, or the redirect scheduled after a password reset. *)
Definition run_callback (cb : Callback) (roleData : option string) : M unit :=
  match cb with
  | fetch_user_role user_id => useAuth.fetchUserRole user_id roleData
  | redirect_to href => assign_location_href href
  end.

(** ** The reset-password page *)

Module ResetPassword.

Record State := {
  password : string;
  confirmPassword : string;
  isLoading : bool;
  isSuccess : bool;
  error : string
}.

Definition initial : State :=
  {| password := ""; confirmPassword := ""; isLoading := false;
     isSuccess := false; error := "" |}.

Definition set_password (p : string) (st : State) : State :=
  {| password := p; confirmPassword := confirmPassword st;
     isLoading := isLoading st; isSuccess := isSuccess st; error := error st |}.

Definition set_confirmPassword (p : string) (st : State) : State :=
  {| password := password st; confirmPassword := p;
     isLoading := isLoading st; isSuccess := isSuccess st; error := error st |}.

Definition set_isLoading (b : bool) (st : State) : State :=
  {| password := password st; confirmPassword := confirmPassword st;
     isLoading := b; isSuccess := isSuccess st; error := error st |}.

Definition set_isSuccess (b : bool) (st : State) : State :=
  {| password := password st; confirmPassword := confirmPassword st;
     isLoading := isLoading st; isSuccess := b; error := error st |}.

Definition set_error (e : string) (st : State) : State :=
  {| password := password st; confirmPassword := confirmPassword st;
     isLoading := isLoading st; isSuccess := isSuccess st; error := e |}.

Definition isPasswordResetSession (searchParams : list (string * string)) : bool :=
  bool_decide (URLSearchParams_get searchParams "type" = Some "recovery")
  || Js.nullable_truthy (URLSearchParams_get searchParams "access_token")
  || Js.nullable_truthy (URLSearchParams_get searchParams "refresh_token").

(** The effect that runs after a render. *)
Definition useEffect (st : State) : M State :=
  searchParams ← gets location_params;
  u ← gets user;
  if isPasswordResetSession searchParams && bool_decide (is_Some u) then mret st
  else if negb (isPasswordResetSession searchParams) then
    mret (set_error "Invalid or expired reset link. Please request a new password reset." st)
  else mret st.

(** What the card under the alert holds. *)
Inductive Body := invalid_link | password_form.

Inductive View : Type :=
| Navigate (to : string)
| success_card
| reset_card (alert : option string) (body : Body).

Definition render (st : State) (w : World) : View :=
  let flow := isPasswordResetSession (location_params w) in
  if bool_decide (is_Some (user w)) && negb flow then Navigate "/"
  else if isSuccess st then success_card
  else reset_card (if Js.string_truthy (error st) then Some (error st) else None)
                  (if negb flow then invalid_link else password_form).

Section json.

Variable JSON_parse : string → option Js.value.

Definition handlePasswordReset (updateUser_answer signOut_answer : option AuthError)
    (st : State) : M State :=
  if negb (String.eqb (password st) (confirmPassword st)) then
    mret (set_error "Passwords do not match" st)
  else if (Js.length (password st) <? 6)%nat then
    mret (set_error "Password must be at least 6 characters long" st)
  else
    let st := set_error "" (set_isLoading true st) in
    result ← useAuth.updatePassword JSON_parse (password st) updateUser_answer;
    st ← match result with
         | None =>
             useAuth.signOut signOut_answer ;;
             setTimeout (redirect_to "/auth") 3000 ;;
             mret (set_isSuccess true st)
         | Some e =>
             mret (set_error (if Js.string_truthy (message e) then message e
                              else "Failed to update password") st)
         end;
    mret (set_isLoading false st).

(** The page handles a submission: [handlePasswordReset] is the [onSubmit]
    of the password form and of nothing else, so it runs only when the
    render holds that form.  The browser's own checks of the two inputs and
    the disabled button can only drop further submissions. *)
Definition submit (updateUser_answer signOut_answer : option AuthError)
    (st : State) : M State :=
  λ w, match render st w with
       | reset_card _ password_form =>
           handlePasswordReset updateUser_answer signOut_answer st w
       | _ => (st, w)
       end.

(** What can happen to the mounted page: the user edits one of the two
    inputs, the user submits, or the effect of a render runs. *)
Inductive Event : Type :=
| edit_password (value : string)
| edit_confirmPassword (value : string)
| submit_form (updateUser_answer signOut_answer : option AuthError)
| after_render.

Definition step (ev : Event) (st : State) : M State :=
  match ev with
  | edit_password value => mret (set_password value st)
  | edit_confirmPassword value => mret (set_confirmPassword value st)
  | submit_form updateUser_answer signOut_answer =>
      submit updateUser_answer signOut_answer st
  | after_render => useEffect st
  end.

Fixpoint steps (evs : list Event) (st : State) : M State :=
  match evs with
  | [] => mret st
  | ev :: rest => st' ← step ev st; steps rest st'
  end.

End json.

End ResetPassword.

(** ** The data store: the tables of the migrations and the row-level
    policies of [referrals] *)

Module Store.

Inductive app_role := admin | referrer.

#[global] Instance app_role_eq_dec : EqDecision app_role.
Proof. solve_decision. Defined.

(** [referral_stage], with the value a later migration puts first. *)
Inductive referral_stage :=
| Referred_Connection
| Client_Signed
| Site_Inspection_Done
| Documents_Verified
| Solar_Installed.

(** The enumeration [bonus_status]. *)
Inductive bonus_status_enum := Pending | Paid.

Record user_roles_row := {
  role_user_id : string;
  role : app_role
}.

Record referrals_row := {
  id : string;
  user_id : string;
  client_name : string;
  client_email : option string;
  client_phone : option string;
  client_address : option string;
  stage : referral_stage;
  bonus_status : bonus_status_enum;
  notes : option string;
  (** [TIMESTAMP WITH TIME ZONE], as an instant on the integer line *)
  created_at : Z
}.

Record profiles_row := {
  profile_id : string;
  profile_user_id : string;
  name : string;
  payment_method : option string;
  payment_details : Js.value;
  profile_created_at : Z
}.

Record Database := {
  user_roles : list user_roles_row;
  referrals : list referrals_row;
  profiles : list profiles_row
}.

(** [public.has_role(_user_id, _role)]; a [NULL] id matches no row. *)
Definition has_role (db : Database) (_user_id : option string) (_role : app_role) : bool :=
  match _user_id with
  | Some u =>
      existsb (λ r, bool_decide (role_user_id r = u) && bool_decide (role r = _role))
              (user_roles db)
  | None => false
  end.

(** "Users can view their own referrals": [auth.uid() = user_id]. *)
Definition users_can_view_own (uid : option string) (r : referrals_row) : bool :=
  bool_decide (uid = Some (user_id r)).

(** "Admins can view all referrals": [has_role(auth.uid(), 'admin')]. *)
Definition admins_can_view_all (db : Database) (uid : option string) : bool :=
  has_role db uid admin.

(** A row is visible to a [SELECT] when one of the two policies admits it. *)
Definition referrals_select_policy (db : Database) (uid : option string)
    (r : referrals_row) : bool :=
  users_can_view_own uid r || admins_can_view_all db uid.

(** [created_at] of the first is not before that of the second. *)
Definition newer_first (a b : referrals_row) : Prop := (created_at b ≤ created_at a)%Z.

#[global] Instance newer_first_dec : RelDecision newer_first.
Proof. intros a b. unfold newer_first. apply _. Defined.

(** [.order('created_at', { ascending: false })] *)
Definition order_created_at_desc (rows : list referrals_row) : list referrals_row :=
  merge_sort newer_first rows.

Definition visible_referrals (db : Database) (uid : option string) : list referrals_row :=
  filter (λ r, referrals_select_policy db uid r = true) (referrals db).

(** [from('referrals').select('*').eq('user_id', u).order('created_at', desc)]
    as the caller [uid]. *)
Definition referrals_of_user (db : Database) (uid : option string) (u : string)
    : list referrals_row :=
  order_created_at_desc (filter (λ r, user_id r = u) (visible_referrals db uid)).

(** The embedded profile of the admin listing.  The migration that declares
    the relationship is not among the sources; the listing is an outer join,
    so whatever it finds, the referral rows are those of the plain query. *)
Definition embedded_profile_name (db : Database) (r : referrals_row) : option string :=
  name <$> head (filter (λ p, profile_user_id p = user_id r) (profiles db)).

(** [from('referrals').select('*, profiles:profiles(user_id, name)')
    .order('created_at', desc)] as the caller [uid]. *)
Definition referrals_with_profiles (db : Database) (uid : option string)
    : list (referrals_row * option string) :=
  (λ r, (r, embedded_profile_name db r)) <$> order_created_at_desc (visible_referrals db uid).

(** An error object of the store. *)
Record StoreError := { store_message : string }.

(** [{ data, error }] *)
Record Answer (A : Type) := {
  data : option A;
  error : option StoreError
}.
Arguments data {A}.
Arguments error {A}.

Definition answered {A} (a : A) : Answer A := {| data := Some a; error := None |}.

End Store.


(** ** src/components/ReferrerDashboard.tsx *)

Module ReferrerDashboard.

Record State := {
  referrals : list Store.referrals_row;
  loading : bool;
  newReferral : ReferralForm;
  isAdding : bool
}.

Definition set_referrals (l : list Store.referrals_row) (st : State) : State :=
  {| referrals := l; loading := loading st; newReferral := newReferral st;
     isAdding := isAdding st |}.

Definition set_loading (b : bool) (st : State) : State :=
  {| referrals := referrals st; loading := b; newReferral := newReferral st;
     isAdding := isAdding st |}.

Definition set_newReferral (f : ReferralForm) (st : State) : State :=
  {| referrals := referrals st; loading := loading st; newReferral := f;
     isAdding := isAdding st |}.

Definition set_isAdding (b : bool) (st : State) : State :=
  {| referrals := referrals st; loading := loading st; newReferral := newReferral st;
     isAdding := b |}.

Definition fetchReferrals (answer : Store.Answer (list Store.referrals_row)) (st : State) : M State :=
  u ← gets user;
  emit (Store (select_referrals_eq_user (Supabase.id <$> u))) ;;
  st ← match Store.error answer with
       | Some _ =>
           toast {| title := "Error"; description := "Failed to fetch referrals";
                    variant := destructive |} ;;
           mret st
       | None => mret (set_referrals (default [] (Store.data answer)) st)
       end;
  mret (set_loading false st).

(** [insert_error] is the [error] of the insert's answer; [fetch_answer] is
    what the store answers the listing the handler starts on success. *)
Definition handleAddReferral (insert_error : option Store.StoreError)
    (fetch_answer : Store.Answer (list Store.referrals_row)) (st : State) : M State :=
  let st := set_isAdding true st in
  u ← gets user;
  emit (Store (insert_referral {| insert_user_id := Supabase.id <$> u;
                                  insert_form := newReferral st |})) ;;
  st ← match insert_error with
       | Some _ =>
           toast {| title := "Error"; description := "Failed to add referral";
                    variant := destructive |} ;;
           mret st
       | None =>
           toast {| title := "Success"; description := "Referral added successfully";
                    variant := plain |} ;;
           fetchReferrals fetch_answer (set_newReferral empty_form st)
       end;
  mret (set_isAdding false st).

Section browser.

(** The browser's check of the [type="email"] input; it is the platform's. *)
Variable email_input_valid : string → bool.

(** The add-referral form passes the browser's validation: the [required]
    client name is not empty and the email field is well-formed. *)
Definition form_valid (f : ReferralForm) : bool :=
  Js.string_truthy (Supabase.client_name f) && email_input_valid (Supabase.client_email f).

(** The user submits the add-referral form.  [Input] and [Button] hand
    their properties to the elements they render: the submit button is
    [disabled={isAdding}], and the browser runs [onSubmit] only for a form
    that passes its validation. *)
Definition submit (insert_error : option Store.StoreError)
    (fetch_answer : Store.Answer (list Store.referrals_row)) (st : State) : M State :=
  if negb (isAdding st) && form_valid (newReferral st) then
    handleAddReferral insert_error fetch_answer st
  else mret st.

End browser.

End ReferrerDashboard.

(** ** The referrer dashboard with payout details (a later revision of the
    same component): the profile and the payment form.  Its add-referral
    handler is the one above with the profile's id added to the inserted
    object. *)

Module PayoutDashboard.

Record State := {
  userProfile : option Store.profiles_row;
  paymentMethod : string;
  paymentDetails : Js.value;
  isSavingPayment : bool
}.

Definition set_userProfile (p : option Store.profiles_row) (st : State) : State :=
  {| userProfile := p; paymentMethod := paymentMethod st;
     paymentDetails := paymentDetails st; isSavingPayment := isSavingPayment st |}.

Definition set_payment (method : string) (details : Js.value) (st : State) : State :=
  {| userProfile := userProfile st; paymentMethod := method;
     paymentDetails := details; isSavingPayment := isSavingPayment st |}.

Definition set_isSavingPayment (b : bool) (st : State) : State :=
  {| userProfile := userProfile st; paymentMethod := paymentMethod st;
     paymentDetails := paymentDetails st; isSavingPayment := b |}.

Definition fetchUserProfile (answer : Store.Answer Store.profiles_row) (st : State) : M State :=
  u ← gets user;
  emit (Store (select_profile_eq_user (Supabase.id <$> u))) ;;
  match Store.error answer with
  | Some _ => mret st
  | None =>
      let st := set_userProfile (Store.data answer) st in
      match Store.data answer with
      | Some p =>
          match Store.payment_method p with
          | Some method =>
              if Js.string_truthy method then
                mret (set_payment method
                        (if Js.truthy (Store.payment_details p) then Store.payment_details p
                         else Js.Obj []) st)
              else mret st
          | None => mret st
          end
      | None => mret st
      end
  end.

Definition handleSavePaymentDetails (update_error : option Store.StoreError)
    (fetch_answer : Store.Answer Store.profiles_row) (st : State) : M State :=
  match userProfile st with
  | Some p =>
      if negb (Js.string_truthy (paymentMethod st)) || negb (Js.string_truthy (Store.profile_id p))
      then mret st
      else
        let st := set_isSavingPayment true st in
        emit (Store (update_profile (Store.profile_id p) (paymentMethod st) (paymentDetails st))) ;;
        st ← match update_error with
             | Some _ =>
                 toast {| title := "Error"; description := "Failed to save payment details";
                          variant := destructive |} ;;
                 mret st
             | None =>
                 toast {| title := "Success";
                          description := "Payment details saved successfully";
                          variant := plain |} ;;
                 fetchUserProfile fetch_answer st
             end;
        mret (set_isSavingPayment false st)
  | None => mret st
  end.

End PayoutDashboard.

(** ** The admin panel: the add-referral tab *)

Module AdminPanel.

Record UserEntry := {
  entry_id : string;
  entry_name : string;
  entry_email : string;
  entry_bank_details : string;
  entry_created_at : Z
}.

Record State := {
  users : list UserEntry;
  referrals : list (Store.referrals_row * string);
  loading : bool;
  (** [newReferral.user_id] and the rest of [newReferral] *)
  newReferral_user_id : string;
  newReferral : ReferralForm;
  isAdding : bool
}.

Definition set_lists (us : list UserEntry) (rs : list (Store.referrals_row * string))
    (st : State) : State :=
  {| users := us; referrals := rs; loading := loading st;
     newReferral_user_id := newReferral_user_id st; newReferral := newReferral st;
     isAdding := isAdding st |}.

Definition set_loading (b : bool) (st : State) : State :=
  {| users := users st; referrals := referrals st; loading := b;
     newReferral_user_id := newReferral_user_id st; newReferral := newReferral st;
     isAdding := isAdding st |}.

Definition set_newReferral (u : string) (f : ReferralForm) (st : State) : State :=
  {| users := users st; referrals := referrals st; loading := loading st;
     newReferral_user_id := u; newReferral := f; isAdding := isAdding st |}.

Definition set_isAdding (b : bool) (st : State) : State :=
  {| users := users st; referrals := referrals st; loading := loading st;
     newReferral_user_id := newReferral_user_id st; newReferral := newReferral st;
     isAdding := b |}.

(** A profile as the users tab lists it.  The panel still reads
    [bank_details], a column the later migration drops: it reads as absent,
    so the entry holds the empty string the code puts in its place. *)
Definition user_entry (p : Store.profiles_row) : UserEntry :=
  {| entry_id := Store.profile_user_id p; entry_name := Store.name p; entry_email := "";
     entry_bank_details := ""; entry_created_at := Store.profile_created_at p |}.

Definition referral_entry (r : Store.referrals_row * option string) : Store.referrals_row * string :=
  (r.1, match r.2 with
        | Some n => if Js.string_truthy n then n else "Unknown User"
        | None => "Unknown User"
        end).

Definition fetchData (profiles_answer : Store.Answer (list Store.profiles_row))
    (referrals_answer : Store.Answer (list (Store.referrals_row * option string)))
    (st : State) : M State :=
  emit (Store select_profiles_all) ;;
  emit (Store select_referrals_all) ;;
  st ← match Store.error referrals_answer with
       | Some _ =>
           toast {| title := "Error"; description := "Failed to fetch data";
                    variant := destructive |} ;;
           mret st
       | None =>
           mret (set_lists (user_entry <$> default [] (Store.data profiles_answer))
                           (referral_entry <$> default [] (Store.data referrals_answer)) st)
       end;
  mret (set_loading false st).

Definition handleAddReferral (insert_error : option Store.StoreError)
    (profiles_answer : Store.Answer (list Store.profiles_row))
    (referrals_answer : Store.Answer (list (Store.referrals_row * option string)))
    (st : State) : M State :=
  let st := set_isAdding true st in
  emit (Store (insert_referral {| insert_user_id := Some (newReferral_user_id st);
                                  insert_form := newReferral st |})) ;;
  st ← match insert_error with
       | Some _ =>
           toast {| title := "Error"; description := "Failed to add referral";
                    variant := destructive |} ;;
           mret st
       | None =>
           toast {| title := "Success"; description := "Referral added successfully";
                    variant := plain |} ;;
           fetchData profiles_answer referrals_answer
             (set_newReferral "" empty_form st)
       end;
  mret (set_isAdding false st).

(** [disabled={isAdding || !newReferral.user_id || !newReferral.client_name}] *)
Definition add_button_disabled (st : State) : bool :=
  isAdding st
  || negb (Js.string_truthy (newReferral_user_id st))
  || negb (Js.string_truthy (Supabase.client_name (newReferral st))).

(** The user clicks the add-referral button: a disabled button runs no
    [onClick]. *)
Definition click_add (insert_error : option Store.StoreError)
    (profiles_answer : Store.Answer (list Store.profiles_row))
    (referrals_answer : Store.Answer (list (Store.referrals_row * option string)))
    (st : State) : M State :=
  if add_button_disabled st then mret st
  else handleAddReferral insert_error profiles_answer referrals_answer st.

End AdminPanel.


(** ** Reading a trace *)

Definition notifications (es : list Effect) : list Toast :=
  omap (λ e, match e with Toasted t => Some t | _ => None end) es.

Definition provider_calls (es : list Effect) : list AuthCall :=
  omap (λ e, match e with Auth c => Some c | _ => None end) es.

Definition store_requests (es : list Effect) : list StoreRequest :=
  omap (λ e, match e with Store r => Some r | _ => None end) es.

(** The variant a notification has when it reports the outcome [r]. *)
Definition outcome_variant {A} (r : option A) : Variant :=
  match r with
  | Some _ => destructive
  | None => plain
  end.

(** The query string names the parameter [name], whatever its value. *)
Definition carries_param (params : list (string * string)) (name : string) : Prop :=
  name ∈ params.*1.

(** The query string carries none of the recovery indicators: no [type]
    parameter with the value [recovery], no [access_token] parameter and no
    [refresh_token] parameter. *)
Definition no_recovery_parameters (params : list (string * string)) : Prop :=
(("type", "recovery") ∉ params)
  ∧ ¬ carries_param params "access_token"
  ∧ ¬ carries_param params "refresh_token".

(** The recovery indicators as the code tests them: the first [type] is
    [recovery], or the first [access_token] or the first [refresh_token] has
    a value that is not empty. *)
Definition recovery_indicators (params : list (string * string)) : Prop :=
  URLSearchParams_get params "type" = Some "recovery"
  ∨ (∃ v, URLSearchParams_get params "access_token" = Some v ∧ v ≠ "")
  ∨ (∃ v, URLSearchParams_get params "refresh_token" = Some v ∧ v ≠ "").

(** The two values [updatePassword] computes before its guard, and the
    notification it ends with when it passes the guard. *)
Definition recoverySession_of (JSON_parse : string → option Js.value) (w : World)
    : Js.value :=
  useAuth.parse_recovery_session JSON_parse (localStorage w !! "recovery_session").

Definition sessionToUse_of (JSON_parse : string → option Js.value) (w : World)
    : Js.value :=
  if Js.truthy (recoverySession_of JSON_parse w) then recoverySession_of JSON_parse w
  else session_value (session w).

Definition update_outcome_toast (error : option AuthError) : Toast :=
  match error with
  | Some e => {| title := "Password update failed"; description := message e;
                 variant := destructive |}
  | None => {| title := "Password updated";
               description := "Your password has been successfully updated.";
               variant := plain |}
  end.

(** ** A concrete page for the examples *)

Module Example.

Definition alice : User := {| Supabase.id := "user-alice" |}.

Definition alice_session : Session :=
  {| access_token := "access-1"; refresh_token := "refresh-1"; Supabase.user := alice |}.

Definition recovery_session : Session :=
  {| access_token := "access-recovery"; refresh_token := "refresh-recovery";
     Supabase.user := alice |}.

Definition quoted (s : string) : string :=
  String (Ascii.ascii_of_nat 34) s +:+ String (Ascii.ascii_of_nat 34) "".

(** The JSON text of a session object with these three members. *)
Definition session_text (access refresh user_id : string) : string :=
  "{" +:+ quoted "access_token" +:+ ":" +:+ quoted access +:+ ","
      +:+ quoted "refresh_token" +:+ ":" +:+ quoted refresh +:+ ","
      +:+ quoted "user" +:+ ":{" +:+ quoted "id" +:+ ":" +:+ quoted user_id +:+ "}}".

Definition recovery_text : string :=
  session_text "access-recovery" "refresh-recovery" "user-alice".

(** The platform's [JSON.stringify] on the values the examples store: a
    session object, or [null]. *)
Definition JSON_stringify (v : Js.value) : string :=
  match v with
  | Js.Obj [(_, Js.Str a); (_, Js.Str r); (_, Js.Obj [(_, Js.Str i)])] => session_text a r i
  | _ => "null"
  end.

(** The platform's [JSON.parse] on the texts the examples store: the text of
    the recovery session, the text [null], and a text that is not JSON. *)
Definition JSON_parse (text : string) : option Js.value :=
  if String.eqb text recovery_text then Some (session_value (Some recovery_session))
  else if String.eqb text "null" then Some Js.Null
  else None.

Definition page (search : string) (params : list (string * string)) : World :=
  {| location_search := search; location_params := params;
     location_origin := "https://app.example"; localStorage := ∅;
     user := None; session := None; userRole := None; loading := true;
     trace := [] |}.

Definition referral (row_id owner client : string) (at_time : Z) : Store.referrals_row :=
  {| Store.id := row_id; Store.user_id := owner; Store.client_name := client;
     Store.client_email := None; Store.client_phone := None;
     Store.client_address := None; Store.stage := Store.Referred_Connection;
     Store.bonus_status := Store.Pending; Store.notes := None;
     Store.created_at := at_time |}.

(** Two referrers and an admin; Alice has the oldest and the newest row. *)
Definition db : Store.Database :=
  {| Store.user_roles :=
       [ {| Store.role_user_id := "user-alice"; Store.role := Store.referrer |};
         {| Store.role_user_id := "user-bob"; Store.role := Store.referrer |};
         {| Store.role_user_id := "user-carol"; Store.role := Store.admin |} ];
     Store.referrals :=
       [ referral "r1" "user-alice" "Lee" 100;
         referral "r2" "user-bob" "Kim" 200;
         referral "r3" "user-alice" "Ray" 300 ];
     Store.profiles := [] |}.

End Example.

(** ** The main page (Index): the role-conditional view *)

Module Index.

Inductive Panel := admin_panel | referrer_dashboard.

(** The spinner, the redirect to the sign-in page, or the page with the
    role badge and one of the two panels. *)
Inductive View : Type :=
| spinner
| Navigate (to : string)
| main (badge : option string) (panel : Panel).

Definition render (w : World) : View :=
  if loading w then spinner
  else match user w with
       | None => Navigate "/auth"
       | Some _ =>
           main (userRole w)
                (if bool_decide (userRole w = Some "admin") then admin_panel
                 else referrer_dashboard)
       end.

(** The sign-out button exists in the main view only; its [onClick] is the
    adapter's [signOut]. *)
Definition click_sign_out (answer : option AuthError) : M unit :=
  λ w, match render w with
       | main _ _ => useAuth.signOut answer w
       | _ => ((), w)
       end.

End Index.

(** ** The sign-in page (Auth); its three revisions share this logic *)

Module Auth.

Record SignInData := { signIn_email : string; signIn_password : string }.

Record SignUpData := {
  signUp_email : string;
  signUp_password : string;
  signUp_name : string
}.

Record State := {
  signInData : SignInData;
  signUpData : SignUpData;
  forgotPasswordEmail : string;
  isLoading : bool;
  showForgotPassword : bool
}.

Definition initial : State :=
  {| signInData := {| signIn_email := ""; signIn_password := "" |};
     signUpData := {| signUp_email := ""; signUp_password := ""; signUp_name := "" |};
     forgotPasswordEmail := ""; isLoading := false; showForgotPassword := false |}.

Definition set_isLoading (b : bool) (st : State) : State :=
  {| signInData := signInData st; signUpData := signUpData st;
     forgotPasswordEmail := forgotPasswordEmail st; isLoading := b;
     showForgotPassword := showForgotPassword st |}.

Definition set_showForgotPassword (b : bool) (st : State) : State :=
  {| signInData := signInData st; signUpData := signUpData st;
     forgotPasswordEmail := forgotPasswordEmail st; isLoading := isLoading st;
     showForgotPassword := b |}.

Definition set_forgotPasswordEmail (e : string) (st : State) : State :=
  {| signInData := signInData st; signUpData := signUpData st;
     forgotPasswordEmail := e; isLoading := isLoading st;
     showForgotPassword := showForgotPassword st |}.

(** The redirect of a signed-in visitor, or the card; the sign-in tab of
    the card holds the forgot-password form instead of the sign-in form
    while [showForgotPassword] is set. *)
Inductive View : Type :=
| Navigate (to : string)
| card (forgot : bool).

Definition render (st : State) (w : World) : View :=
  match user w with
  | Some _ => Navigate "/"
  | None => card (showForgotPassword st)
  end.

Definition handleSignIn (answer : option AuthError) (st : State) : M State :=
  let st := set_isLoading true st in
  useAuth.signIn (signIn_email (signInData st)) (signIn_password (signInData st)) answer ;;
  mret (set_isLoading false st).

Definition handleSignUp (answer : AuthResponse) (st : State) : M State :=
  let st := set_isLoading true st in
  useAuth.signUp (signUp_email (signUpData st)) (signUp_password (signUpData st))
                 (signUp_name (signUpData st)) answer ;;
  mret (set_isLoading false st).

Definition handleForgotPassword (answer : option AuthError) (st : State) : M State :=
  let st := set_isLoading true st in
  useAuth.resetPassword (forgotPasswordEmail st) answer ;;
  mret (set_forgotPasswordEmail ""
          (set_showForgotPassword false (set_isLoading false st))).

Section browser.

(** The browser's check of a [type="email"] input; it is the platform's. *)
Variable email_input_valid : string → bool.

(** A [required] input of type email passes the browser's validation. *)
Definition email_field_ok (value : string) : bool :=
  Js.string_truthy value && email_input_valid value.

(** The user submits one of the three forms.  Each form exists only in the
    card, the sign-in and the forgot-password form exclude each other, every
    input is [required], and every submit button is [disabled={isLoading}]. *)
Definition submit_sign_in (answer : option AuthError) (st : State) : M State :=
  λ w, match render st w with
       | card false =>
           if negb (isLoading st)
              && email_field_ok (signIn_email (signInData st))
              && Js.string_truthy (signIn_password (signInData st))
           then handleSignIn answer st w
           else (st, w)
       | _ => (st, w)
       end.

Definition submit_sign_up (answer : AuthResponse) (st : State) : M State :=
  λ w, match render st w with
       | card _ =>
           if negb (isLoading st)
              && Js.string_truthy (signUp_name (signUpData st))
              && email_field_ok (signUp_email (signUpData st))
              && Js.string_truthy (signUp_password (signUpData st))
           then handleSignUp answer st w
           else (st, w)
       | _ => (st, w)
       end.

Definition submit_forgot_password (answer : option AuthError) (st : State) : M State :=
  λ w, match render st w with
       | card true =>
           if negb (isLoading st) && email_field_ok (forgotPasswordEmail st)
           then handleForgotPassword answer st w
           else (st, w)
       | _ => (st, w)
       end.

End browser.

End Auth.

(** ** Everything that can happen to the adapter of a mounted page *)

Module Adapter.

#[global] Instance Callback_eq_dec : EqDecision Callback.
Proof. solve_decision. Defined.

(** An auth event is delivered, the session request of the mount is
    answered, a timer fires, or a view calls one of the five operations. *)
Inductive Op : Type :=
| deliver (event : string) (delivered : option Session) (signOut_answer : option AuthError)
| session_answer (current : option Session)
| fire (cb : Callback) (roleData : option string)
| call_signUp (email password name : string) (answer : AuthResponse)
| call_signIn (email password : string) (answer : option AuthError)
| call_signOut (answer : option AuthError)
| call_resetPassword (email : string) (answer : option AuthError)
| call_updatePassword (password : string) (answer : option AuthError).

Definition requested_session (es : list Effect) : bool :=
  existsb (λ e, match e with Auth getSession_call => true | _ => false end) es.

Definition scheduled (cb : Callback) (es : list Effect) : bool :=
  existsb (λ e, match e with SetTimeout cb' _ => bool_decide (cb' = cb) | _ => false end) es.

(** A session answer needs the request, a timer needs to have been set.
    The trace keeps what has already been answered or fired, so this allows
    more runs than the page has. *)
Definition enabled (op : Op) (w : World) : bool :=
  match op with
  | session_answer _ => requested_session (trace w)
  | fire cb _ => scheduled cb (trace w)
  | _ => true
  end.

Section json.

Variable JSON_stringify : Js.value → string.
Variable JSON_parse : string → option Js.value.

(** [flow] is the [isRecoveryFlow] the mount fixed for the listener. *)
Definition apply (flow : bool) (op : Op) : M unit :=
  match op with
  | deliver event delivered signOut_answer =>
      useAuth.onAuthStateChange JSON_stringify flow event delivered signOut_answer
  | session_answer current => useAuth.getSession_then current
  | fire cb roleData => run_callback cb roleData
  | call_signUp email password name answer =>
      useAuth.signUp email password name answer ;; mret ()
  | call_signIn email password answer => useAuth.signIn email password answer ;; mret ()
  | call_signOut answer => useAuth.signOut answer
  | call_resetPassword email answer => useAuth.resetPassword email answer ;; mret ()
  | call_updatePassword password answer =>
      useAuth.updatePassword JSON_parse password answer ;; mret ()
  end.

Definition step (flow : bool) (op : Op) : M unit :=
  λ w, if enabled op w then apply flow op w else ((), w).

Fixpoint run (flow : bool) (ops : list Op) : M unit :=
  match ops with
  | [] => mret ()
  | op :: rest => step flow op ;; run flow rest
  end.

(** The page from its mount on. *)
Definition mounted (ops : list Op) : M unit :=
  flow ← useAuth.useEffect_mount; run flow ops.

End json.

End Adapter.

(** ** Reading the adapter's state *)

(** The [user] cell holds the user of the [session] cell. *)
Definition consistent (w : World) : Prop := user w = Supabase.user <$> session w.

(** Nothing in the trace asks for the current session, sets a timer or
    queries the store. *)
Definition quiet (es : list Effect) : bool :=
  forallb (λ e, match e with
                | Auth getSession_call | SetTimeout _ _ | Store _ => false
                | _ => true
                end) es.

From stdpp Require Import pretty.

(** ** Object literals with a spread, as the payment form builds them *)

Module JsObject.

Fixpoint indexed (i : nat) (items : list Js.value) : list (string * Js.value) :=
  match items with
  | [] => []
  | x :: rest => (pretty i, x) :: indexed (S i) rest
  end.

(** The own enumerable properties a spread copies: those of an object, the
    indices of an array or of a string, none of anything else. *)
Definition own_props (v : Js.value) : list (string * Js.value) :=
  match v with
  | Js.Obj fields => fields
  | Js.Arr items => indexed 0 items
  | Js.Str s => indexed 0 ((λ u, Js.Str (Js.unit_string u)) <$> Js.code_units s)
  | _ => []
  end.

(** Assignment to a property: in place when the object has it, at the end
    when it has not. *)
Fixpoint assign (k : string) (v : Js.value) (fields : list (string * Js.value))
    : list (string * Js.value) :=
  match fields with
  | [] => [(k, v)]
  | (k', v') :: rest =>
      if String.eqb k k' then (k, v) :: rest else (k', v') :: assign k v rest
  end.

(** The object literal with a spread and one property. *)
Definition spread_with (obj : Js.value) (k : string) (v : Js.value) : Js.value :=
  Js.Obj (assign k v (own_props obj)).

(** [Object.keys] *)
Definition keys (v : Js.value) : list string := (own_props v).*1.

End JsObject.

(** ** The payment form of the referrer dashboard *)

Module PaymentForm.

(** The three items of the payment-method select. *)
Definition items : list string := ["zelle"; "paypal"; "bank_transfer"].

(** The [payment_details] keys that [renderPaymentFields] renders an input
    for. *)
Definition rendered_fields (paymentMethod : string) : list string :=
  if String.eqb paymentMethod "zelle" then ["email_or_phone"]
  else if String.eqb paymentMethod "paypal" then ["email"]
  else if String.eqb paymentMethod "bank_transfer" then
    ["full_name"; "bank_name"; "account_number"; "routing_number"]
  else [].

(** The select's [onValueChange]: the method is set and the details are
    emptied. *)
Definition onValueChange (value : string) (st : PayoutDashboard.State)
    : PayoutDashboard.State :=
  PayoutDashboard.set_payment value (Js.Obj []) st.

(** The [onChange] of the input for [field]: the Zelle and PayPal inputs
    replace the details by an object with their one key, the bank inputs
    spread the details and set their key. *)
Definition onChange (field value : string) (st : PayoutDashboard.State)
    : PayoutDashboard.State :=
  let method := PayoutDashboard.paymentMethod st in
  if String.eqb method "bank_transfer" then
    PayoutDashboard.set_payment method
      (JsObject.spread_with (PayoutDashboard.paymentDetails st) field (Js.Str value)) st
  else
    PayoutDashboard.set_payment method (Js.Obj [(field, Js.Str value)]) st.

(** The user picks an item of the select or types into an input.  The
    select offers its three items only, and an input exists only for a key
    rendered for the current method. *)
Inductive Event : Type :=
| pick (value : string)
| type_into (field value : string).

Definition step (ev : Event) (st : PayoutDashboard.State) : PayoutDashboard.State :=
  match ev with
  | pick value =>
      if bool_decide (value ∈ items) then onValueChange value st else st
  | type_into field value =>
      if bool_decide (field ∈ rendered_fields (PayoutDashboard.paymentMethod st))
      then onChange field value st
      else st
  end.

Definition steps (evs : list Event) (st : PayoutDashboard.State) : PayoutDashboard.State :=
  foldl (λ st ev, step ev st) st evs.



End PaymentForm.

(** ** The row-level policies of the three tables *)

Module Policies.

Inductive Table := profiles | user_roles | referrals.
Inductive Command := SELECT | INSERT | UPDATE | DELETE.

#[global] Instance Table_eq_dec : EqDecision Table.
Proof. solve_decision. Defined.
#[global] Instance Command_eq_dec : EqDecision Command.
Proof. solve_decision. Defined.

(** The two expressions the policies use: [auth.uid() = user_id], and
    [public.has_role(auth.uid(), 'admin')]. *)
Inductive Expr := own_row | is_admin.

(** A [CREATE POLICY]: its table, its command ([None] for [FOR ALL]) and
    the expression of its [USING] or [WITH CHECK]. *)
Record Policy := {
  on_table : Table;
  for_command : option Command;
  expr : Expr
}.

(** The policies of the migration, in its order.  Row-level security is
    enabled on all three tables, so a command no policy admits is denied. *)
Definition policies : list Policy :=
  [ {| on_table := profiles; for_command := Some SELECT; expr := own_row |};
    {| on_table := profiles; for_command := Some UPDATE; expr := own_row |};
    {| on_table := profiles; for_command := Some SELECT; expr := is_admin |};
    {| on_table := profiles; for_command := Some UPDATE; expr := is_admin |};
    {| on_table := user_roles; for_command := Some SELECT; expr := own_row |};
    {| on_table := user_roles; for_command := Some SELECT; expr := is_admin |};
    {| on_table := user_roles; for_command := None; expr := is_admin |};
    {| on_table := referrals; for_command := Some SELECT; expr := own_row |};
    {| on_table := referrals; for_command := Some INSERT; expr := own_row |};
    {| on_table := referrals; for_command := Some UPDATE; expr := own_row |};
    {| on_table := referrals; for_command := Some SELECT; expr := is_admin |};
    {| on_table := referrals; for_command := Some UPDATE; expr := is_admin |};
    {| on_table := referrals; for_command := Some INSERT; expr := is_admin |} ].

Definition holds (db : Store.Database) (uid : option string) (row_user_id : string)
    (e : Expr) : bool :=
  match e with
  | own_row => bool_decide (uid = Some row_user_id)
  | is_admin => Store.has_role db uid Store.admin
  end.

Definition applies (p : Policy) (t : Table) (c : Command) : bool :=
  bool_decide (on_table p = t)
  && match for_command p with
     | Some c' => bool_decide (c' = c)
     | None => true
     end.

(** The caller [uid] may run [c] on a row of [t] whose [user_id] is
    [row_user_id]: some policy for the command admits the row. *)
Definition admits (db : Store.Database) (uid : option string) (t : Table) (c : Command)
    (row_user_id : string) : bool :=
  existsb (λ p, applies p t c && holds db uid row_user_id (expr p)) policies.

(** An insert as a form sends it: a row without [user_id] breaks the
    column's [NOT NULL]. *)
Definition insert_admitted (db : Store.Database) (uid : option string)
    (row : ReferralInsert) : bool :=
  match insert_user_id row with
  | Some u => admits db uid referrals INSERT u
  | None => false
  end.

End Policies.

(** ** The sign-up trigger *)

Module Trigger.

(** [public.handle_new_user()], run after a row [NEW] enters [auth.users]:
    [new_id] is [NEW.id], [meta_name] is [NEW.raw_user_meta_data ->> 'name'],
    [profile_uuid] and [now] are what [gen_random_uuid()] and [now()] give.
    The function is a security definer, so no policy stands in its way; it
    fails, and the sign-up with it, on a profile key or a profile or role of
    that user that the tables already hold. *)
Definition handle_new_user (db : Store.Database) (new_id : string)
    (meta_name : option string) (profile_uuid : string) (now : Z) : option Store.Database :=
  if existsb (λ p, bool_decide (Store.profile_id p = profile_uuid)
                   || bool_decide (Store.profile_user_id p = new_id)) (Store.profiles db)
  then None
  else if existsb (λ r, bool_decide (Store.role_user_id r = new_id)
                        && bool_decide (Store.role r = Store.referrer))
                  (Store.user_roles db)
  then None
  else
    Some {| Store.user_roles :=
              Store.user_roles db
              ++ [ {| Store.role_user_id := new_id; Store.role := Store.referrer |} ];
            Store.referrals := Store.referrals db;
            Store.profiles :=
              Store.profiles db
              ++ [ {| Store.profile_id := profile_uuid; Store.profile_user_id := new_id;
                      Store.name := default "User" meta_name;
                      Store.payment_method := None; Store.payment_details := Js.Null;
                      Store.profile_created_at := now |} ] |}.

End Trigger.

(** ** Figures the dashboards compute from their lists *)

#[global] Instance bonus_status_eq_dec : EqDecision Store.bonus_status_enum.
Proof. solve_decision. Defined.

(** The referrer dashboard's "Bonus Earned": 500 for each referral whose
    bonus is paid. *)
Definition bonus_earned (referrals : list Store.referrals_row) : nat :=
  length (filter (λ r, Store.bonus_status r = Store.Paid) referrals) * 500.

(** The users tab of the admin panel: the number of listed referrals of a
    user. *)
Definition user_referral_count (referrals : list (Store.referrals_row * string))
    (user_id : string) : nat :=
  length (filter (λ r, Store.user_id r.1 = user_id) referrals).

(** What holds of a recovery page from its mount on. *)
Definition role_unresolved (w : World) : Prop :=
  userRole w = None ∧ loading w = false ∧ quiet (trace w) = true.

(** * Properties *)

Lemma issued_app {A} (m : M A) (w : World) (es : list Effect) :
  trace (exec m w) = trace w ++ es → issued m w = es.
Proof. intros E. unfold issued. rewrite E. apply drop_app_length. Qed.

(** Unfold the monad and the page's primitives, then compute. *)
Ltac run :=
  unfold exec, eval,
    localStorage_getItem, localStorage_setItem, localStorage_removeItem,
    toast, setTimeout, assign_location_href, setUser, setSession, setUserRole,
    setLoading, when, emit, modify, gets, mbind, M_bind, mret, M_ret;
  simpl.

(** Read off what a computation sent, after [open] has unfolded it. *)
Ltac sent open :=
  erewrite issued_app; [| open; run; rewrite <- ?app_assoc; reflexivity ].

(** C10.  When [signOut] returns, the adapter's [user], [session] and
    [userRole] are all [null], whether the provider's sign-out succeeded or
    reported an error. *)
Theorem signOut_clears_adapter_state (answer : option AuthError) (w : World) :
  let w' := exec (useAuth.signOut answer) w in
  user w' = None ∧ session w' = None ∧ userRole w' = None.
Proof. unfold useAuth.signOut, useAuth.supabase_auth_signOut. run. auto. Qed.

Example signOut_from_signed_in_page :
  let w := set_userRole (Some "admin")
             (set_session (Some Example.alice_session)
                (set_user (Some Example.alice) (Example.page "" []))) in
  let w' := exec (useAuth.signOut (Some {| message := "network" |})) w in
  (user w, session w, userRole w) = (Some Example.alice, Some Example.alice_session, Some "admin")
  ∧ (user w', session w', userRole w') = (None, None, None)
  ∧ trace w' = [Auth signOut_call].
Proof. repeat split. Qed.

(** C3.  When the provider answers a sign-up with a user and no session,
    [signUp] returns the account-already-exists error, whose message is the
    fixed text, and shows one destructive notification titled
    "Account already exists" with that text; a failure the provider reports
    is returned as it is under another title. *)
Theorem signUp_existing_account (email password name : string) (u : User) (w : World) :
  let m := useAuth.signUp email password name (AuthData (Some u) None) in
  eval m w = Some useAuth.account_exists_error
  ∧ message useAuth.account_exists_error
    = "You already have an account with this email. Please sign in instead."
  ∧ notifications (issued m w)
    = [ {| title := "Account already exists";
           description := "You already have an account with this email. Please sign in instead.";
           variant := destructive |} ]
  ∧ ∀ e, let generic := useAuth.signUp email password name (AuthFailure e) in
         eval generic w = Some e
         ∧ notifications (issued generic w)
           = [ {| title := "Sign up failed"; description := message e;
                  variant := destructive |} ].
Proof.
  repeat split.
  - sent ltac:(unfold useAuth.signUp, useAuth.supabase_auth_signUp). reflexivity.
  - sent ltac:(unfold useAuth.signUp, useAuth.supabase_auth_signUp). reflexivity.
Qed.

(** *** The recovery callback *)

Lemma nullable_truthy_spec (o : option string) :
  Js.nullable_truthy o = true ↔ ∃ v, o = Some v ∧ v ≠ "".
Proof.
  destruct o as [s|]; simpl; unfold Js.string_truthy.
  - rewrite negb_true_iff, String.eqb_neq. split.
    + intros Hs. exists s. split; [reflexivity | exact Hs].
    + intros (v & Hv & Hne). congruence.
  - split; [discriminate | intros (v & Hv & _); discriminate].
Qed.

Lemma isRecoveryFlow_spec (params : list (string * string)) :
  useAuth.isRecoveryFlow params = true ↔ recovery_indicators params.
Proof.
  unfold useAuth.isRecoveryFlow, recovery_indicators.
  rewrite !orb_true_iff, bool_decide_eq_true, !nullable_truthy_spec. tauto.
Qed.

(** C1, as the code has it.  On a page whose query string carries a recovery
    indicator (the first [type] is [recovery], or the first [access_token] or
    [refresh_token] has a value that is not empty), a [SIGNED_IN] event
    leaves the adapter's cells as they were: the delivered session is
    written to [localStorage] under [recovery_session], then the provider's
    [signOut] is called, then the browser is sent to [/reset-password] with
    the query string. *)
Theorem recovery_sign_in_is_intercepted (JSON_stringify : Js.value → string) (w : World) :
  recovery_indicators (location_params w) →
  ∀ (delivered : option Session) (answer : option AuthError) (w2 : World),
    let flow := eval useAuth.useEffect_mount w in
    let m := useAuth.onAuthStateChange JSON_stringify flow "SIGNED_IN" delivered answer in
    (user (exec m w2), session (exec m w2), userRole (exec m w2), loading (exec m w2))
      = (user w2, session w2, userRole w2, loading w2)
    ∧ localStorage (exec m w2)
      = <["recovery_session" := JSON_stringify (session_value delivered)]> (localStorage w2)
    ∧ issued m w2
      = [Auth signOut_call; LocationHref ("/reset-password" +:+ location_search w2)].
Proof.
  intros Hflow delivered answer w2. apply isRecoveryFlow_spec in Hflow.
  assert (eval useAuth.useEffect_mount w = true) as ->.
  { unfold useAuth.useEffect_mount. run. rewrite Hflow. reflexivity. }
  repeat split.
  sent ltac:(unfold useAuth.onAuthStateChange, useAuth.supabase_auth_signOut).
  reflexivity.
Qed.

Lemma recovery_sign_in_is_intercepted_witness :
  let w := Example.page "?type=recovery" [("type", "recovery")] in
  let m := useAuth.onAuthStateChange Example.JSON_stringify (eval useAuth.useEffect_mount w)
             "SIGNED_IN" (Some Example.recovery_session) None in
  recovery_indicators (location_params w)
  ∧ session (exec m (exec useAuth.useEffect_mount w)) = None
  ∧ localStorage (exec m (exec useAuth.useEffect_mount w)) !! "recovery_session"
    = Some Example.recovery_text
  ∧ issued m (exec useAuth.useEffect_mount w)
    = [Auth signOut_call; LocationHref "/reset-password?type=recovery"].
Proof.
  assert (recovery_indicators
            (location_params (Example.page "?type=recovery" [("type", "recovery")]))) as H.
  { left. reflexivity. }
  split; [exact H|].
  destruct (recovery_sign_in_is_intercepted Example.JSON_stringify _ H
              (Some Example.recovery_session) None
              (exec useAuth.useEffect_mount
                 (Example.page "?type=recovery" [("type", "recovery")])))
    as (Hcells & Hstore & Hsent).
  split; [|split].
  - exact (f_equal (λ cells, cells.1.1.2) Hcells).
  - rewrite Hstore. reflexivity.
  - exact Hsent.
Defined.

(** C1, as the spec words it, fails: a query string that carries an
    [access_token] parameter with an empty value is not read as a recovery
    flow, and the [SIGNED_IN] event establishes the session. *)
Lemma empty_access_token_is_not_intercepted :
  let w := Example.page "?access_token=" [("access_token", "")] in
  let m := useAuth.onAuthStateChange Example.JSON_stringify (eval useAuth.useEffect_mount w)
             "SIGNED_IN" (Some Example.alice_session) None in
  carries_param (location_params w) "access_token"
  ∧ session (exec m (exec useAuth.useEffect_mount w)) = Some Example.alice_session
  ∧ user (exec m (exec useAuth.useEffect_mount w)) = Some Example.alice
  ∧ localStorage (exec m (exec useAuth.useEffect_mount w)) !! "recovery_session" = None
  ∧ trace (exec m (exec useAuth.useEffect_mount w))
    = [Auth getSession_call; SetTimeout (fetch_user_role "user-alice") 0].
Proof.
  split; [|repeat split].
  unfold carries_param. simpl. apply list_elem_of_here.
Qed.

(** Only [SIGNED_IN] is intercepted: any other event that carries a session
    sets it on a recovery page too (the role lookup alone is skipped). *)
Example other_event_on_recovery_page_sets_session :
  let w := Example.page "?type=recovery" [("type", "recovery")] in
  let m := useAuth.onAuthStateChange Example.JSON_stringify (eval useAuth.useEffect_mount w)
             "TOKEN_REFRESHED" (Some Example.alice_session) None in
  session (exec m (exec useAuth.useEffect_mount w)) = Some Example.alice_session
  ∧ user (exec m (exec useAuth.useEffect_mount w)) = Some Example.alice
  ∧ userRole (exec m (exec useAuth.useEffect_mount w)) = None
  ∧ trace (exec m (exec useAuth.useEffect_mount w)) = [].
Proof. repeat split. Qed.

(** *** [updatePassword] *)

Section updatePassword.

Variable JSON_parse : string → option Js.value.

Lemma updatePassword_guarded (password : string) (answer : option AuthError) (w : World) :
  Js.truthy (Js.prop (sessionToUse_of JSON_parse w) "access_token") = false →
  useAuth.updatePassword JSON_parse password answer w
  = (Some useAuth.no_valid_session_error,
     add_effect (Toasted {| title := "Password update failed";
                            description := "No valid session found for password reset";
                            variant := destructive |}) w).
Proof.
  unfold sessionToUse_of, recoverySession_of. intros Hguard.
  unfold useAuth.updatePassword, useAuth.supabase_auth_updateUser,
    useAuth.supabase_auth_setSession. run.
  rewrite Hguard. reflexivity.
Qed.

Lemma updatePassword_attempted (password : string) (answer : option AuthError) (w : World) :
  Js.truthy (Js.prop (sessionToUse_of JSON_parse w) "access_token") = true →
  eval (useAuth.updatePassword JSON_parse password answer) w = answer
  ∧ localStorage (exec (useAuth.updatePassword JSON_parse password answer) w)
    = delete "recovery_session" (localStorage w)
  ∧ trace (exec (useAuth.updatePassword JSON_parse password answer) w)
    = trace w
      ++ (if Js.truthy (recoverySession_of JSON_parse w)
          then [Auth (setSession_call (Js.prop (recoverySession_of JSON_parse w) "access_token")
                                      (Js.prop (recoverySession_of JSON_parse w) "refresh_token"))]
          else [])
      ++ [Auth (updateUser_call password); Toasted (update_outcome_toast answer)]
  ∧ (user (exec (useAuth.updatePassword JSON_parse password answer) w),
     session (exec (useAuth.updatePassword JSON_parse password answer) w),
     userRole (exec (useAuth.updatePassword JSON_parse password answer) w))
    = (user w, session w, userRole w).
Proof.
  unfold sessionToUse_of, recoverySession_of. intros Hguard.
  unfold useAuth.updatePassword, useAuth.supabase_auth_updateUser,
    useAuth.supabase_auth_setSession. run.
  rewrite Hguard. simpl.
  destruct (Js.truthy (useAuth.parse_recovery_session JSON_parse
                         (localStorage w !! "recovery_session")));
    destruct answer; simpl; rewrite <- ?app_assoc; simpl; rewrite ?app_nil_r; auto.
Qed.

(** The trace only grows. *)
Lemma updatePassword_trace (password : string) (answer : option AuthError) (w : World) :
  ∃ es, trace (exec (useAuth.updatePassword JSON_parse password answer) w) = trace w ++ es.
Proof.
  destruct (Js.truthy (Js.prop (sessionToUse_of JSON_parse w) "access_token")) eqn:Hguard.
  - destruct (updatePassword_attempted password answer w Hguard) as (_ & _ & Ht & _).
    rewrite Ht. eauto.
  - unfold exec. rewrite updatePassword_guarded by exact Hguard. simpl. eauto.
Qed.

(** C2, as the code has it.  When [recovery_session] holds a text that
    parses to a value with a truthy [access_token], that value is preferred
    over the ambient session, whatever the latter is: its two tokens go to
    [setSession], then the update is performed, and the provider's answer is
    returned.  Whenever the update is performed, whether the provider then
    reports success or an error, the key is gone from [localStorage].  When
    no value with a truthy [access_token] is found, the call returns its own
    error and does not call the provider. *)
Theorem updatePassword_recovery_session (password : string) (answer : option AuthError)
    (w : World) :
  let m := useAuth.updatePassword JSON_parse password answer in
  (∀ text stored,
      localStorage w !! "recovery_session" = Some text →
      text ≠ "" →
      JSON_parse text = Some stored →
      Js.truthy (Js.prop stored "access_token") = true →
      provider_calls (issued m w)
      = [setSession_call (Js.prop stored "access_token") (Js.prop stored "refresh_token");
         updateUser_call password]
      ∧ eval m w = answer)
  ∧ (updateUser_call password ∈ provider_calls (issued m w) →
     localStorage (exec m w) !! "recovery_session" = None)
  ∧ (Js.truthy (Js.prop (sessionToUse_of JSON_parse w) "access_token") = false →
     provider_calls (issued m w) = []
     ∧ eval m w = Some useAuth.no_valid_session_error).
Proof.
  split; [|split].
  - intros text stored Hget Hne Hparse Htoken.
    assert (recoverySession_of JSON_parse w = stored) as Hrs.
    { unfold recoverySession_of, useAuth.parse_recovery_session.
      rewrite Hget. unfold Js.string_truthy.
      apply String.eqb_neq in Hne. rewrite Hne. simpl. rewrite Hparse. reflexivity. }
    assert (Js.truthy stored = true) as Hobj.
    { destruct stored; try discriminate Htoken; reflexivity. }
    assert (Js.truthy (Js.prop (sessionToUse_of JSON_parse w) "access_token") = true) as Hguard.
    { unfold sessionToUse_of. rewrite Hrs, Hobj. exact Htoken. }
    destruct (updatePassword_attempted password answer w Hguard) as (Hr & _ & Ht & _).
    split; [|exact Hr].
    rewrite Hrs, Hobj in Ht. erewrite issued_app by exact Ht. reflexivity.
  - intros Hcall.
    destruct (Js.truthy (Js.prop (sessionToUse_of JSON_parse w) "access_token")) eqn:Hguard.
    + destruct (updatePassword_attempted password answer w Hguard) as (_ & Hs & _).
      rewrite Hs. apply lookup_delete_eq.
    + exfalso. revert Hcall. unfold issued, exec.
      rewrite updatePassword_guarded by exact Hguard. simpl.
      rewrite drop_app_length. simpl. apply not_elem_of_nil.
  - intros Hguard. unfold issued, exec, eval.
    rewrite updatePassword_guarded by exact Hguard. simpl.
    rewrite drop_app_length. split; reflexivity.
Qed.

End updatePassword.

Lemma updatePassword_recovery_session_witness :
  let w := set_session (Some Example.alice_session)
             (set_localStorage (insert "recovery_session" Example.recovery_text)
                (Example.page "?type=recovery" [("type", "recovery")])) in
  let answer := Some {| message := "Password is too weak" |} in
  let m := useAuth.updatePassword Example.JSON_parse "new-password" answer in
  provider_calls (issued m w)
  = [setSession_call (Js.Str "access-recovery") (Js.Str "refresh-recovery");
     updateUser_call "new-password"]
  ∧ eval m w = answer
  ∧ localStorage (exec m w) !! "recovery_session" = None.
Proof.
  intros w answer m.
  destruct (updatePassword_recovery_session Example.JSON_parse "new-password" answer w)
    as (Hpreferred & Hremoved & _).
  cbv zeta in Hpreferred, Hremoved. fold m in Hpreferred, Hremoved.
  destruct (Hpreferred Example.recovery_text (session_value (Some Example.recovery_session)))
    as [Hcalls Hanswer].
  - reflexivity.
  - discriminate.
  - reflexivity.
  - reflexivity.
  - split; [exact Hcalls|]. split; [exact Hanswer|].
    apply Hremoved. rewrite Hcalls. apply list_elem_of_further, list_elem_of_here.
Defined.

(** C2, as the spec words it, fails: when no usable session is found the
    call returns before the clean-up.  Here the key holds the text [null]
    (what the listener stores for an event without a session) and there is
    no ambient session: the stored text is still there after the call. *)
Lemma updatePassword_guard_keeps_stored_text :
  let w := set_localStorage (insert "recovery_session" "null")
             (Example.page "?type=recovery" [("type", "recovery")]) in
  let m := useAuth.updatePassword Example.JSON_parse "new-password" None in
  localStorage w !! "recovery_session" = Some "null"
  ∧ eval m w = Some useAuth.no_valid_session_error
  ∧ localStorage (exec m w) !! "recovery_session" = Some "null"
  ∧ provider_calls (issued m w) = [].
Proof. repeat split. Qed.

(** *** What the adapter's operations report *)

(** C8, as the code has it.  [signUp], [resetPassword] and [updatePassword]
    show exactly one notification and return an error indicator, and both
    follow what happened.
    - [signUp] returns the provider's error when it gives one, the fixed
      account-exists error when the provider answers a user without a
      session, and no error otherwise; the notification is destructive in
      the first two cases, with the returned error's message, and the
      confirmation notice in the third.
    - [resetPassword] returns the provider's error indicator; the
      notification is destructive with its message on failure and the
      notice of the sent link on success.
    - [updatePassword], when it finds no session with an access token,
      calls nothing and returns the fixed no-session error; otherwise it
      returns the indicator the provider answers to the update.  The
      notification is destructive with the returned error's message, or
      the notice of the update when no error is returned.
    [signIn] returns the provider's error indicator and notifies only a
    failure.  [signOut] shows nothing and returns nothing.  Every operation
    calls each provider endpoint at most once: nothing is retried. *)
Theorem adapter_operations_report (JSON_parse : string → option Js.value) (w : World) :
  (∀ email password name answer,
      let m := useAuth.signUp email password name answer in
      eval m w
      = match answer with
        | AuthFailure e => Some e
        | AuthData (Some _) None => Some useAuth.account_exists_error
        | AuthData _ _ => None
        end
      ∧ notifications (issued m w)
        = [match answer with
           | AuthFailure e =>
               {| title := "Sign up failed"; description := message e;
                  variant := destructive |}
           | AuthData (Some _) None =>
               {| title := "Account already exists";
                  description := message useAuth.account_exists_error;
                  variant := destructive |}
           | AuthData _ _ =>
               {| title := "Check your email";
                  description := "Please check your email for a confirmation link.";
                  variant := plain |}
           end]
      ∧ variant <$> notifications (issued m w) = [outcome_variant (eval m w)]
      ∧ provider_calls (issued m w)
        = [signUp_call email password (location_origin w +:+ "/") name])
  ∧ (∀ email answer,
      let m := useAuth.resetPassword email answer in
      eval m w = answer
      ∧ notifications (issued m w)
        = [match answer with
           | Some e =>
               {| title := "Reset failed"; description := message e;
                  variant := destructive |}
           | None =>
               {| title := "Check your email";
                  description :=
                    "We've sent you a password reset link that expires in 15 minutes.";
                  variant := plain |}
           end]
      ∧ variant <$> notifications (issued m w) = [outcome_variant (eval m w)]
      ∧ provider_calls (issued m w)
        = [resetPasswordForEmail_call email (location_origin w +:+ "/reset-password")])
  ∧ (∀ password answer,
      let m := useAuth.updatePassword JSON_parse password answer in
      let recoverySession := recoverySession_of JSON_parse w in
      let usable := Js.truthy (Js.prop (sessionToUse_of JSON_parse w) "access_token") in
      eval m w = (if usable then answer else Some useAuth.no_valid_session_error)
      ∧ notifications (issued m w)
        = [match eval m w with
           | Some e =>
               {| title := "Password update failed"; description := message e;
                  variant := destructive |}
           | None =>
               {| title := "Password updated";
                  description := "Your password has been successfully updated.";
                  variant := plain |}
           end]
      ∧ variant <$> notifications (issued m w) = [outcome_variant (eval m w)]
      ∧ provider_calls (issued m w)
        = (if usable then
             (if Js.truthy recoverySession
              then [setSession_call (Js.prop recoverySession "access_token")
                                    (Js.prop recoverySession "refresh_token")]
              else [])
             ++ [updateUser_call password]
           else []))
  ∧ (∀ email password answer,
      let m := useAuth.signIn email password answer in
      notifications (issued m w)
      = match answer with
        | Some e => [ {| title := "Sign in failed"; description := message e;
                         variant := destructive |} ]
        | None => []
        end
      ∧ eval m w = answer
      ∧ provider_calls (issued m w) = [signInWithPassword_call email password])
  ∧ (∀ answer,
      let m := useAuth.signOut answer in
      notifications (issued m w) = []
      ∧ eval m w = ()
      ∧ provider_calls (issued m w) = [signOut_call]).
Proof.
  repeat apply conj.
  - intros email password name [[u|] [s|] | e]; simpl;
      (split; [reflexivity|]);
      (repeat split; sent ltac:(unfold useAuth.signUp, useAuth.supabase_auth_signUp);
       reflexivity).
  - intros email [e|]; simpl;
      (split; [reflexivity|]);
      (repeat split;
       sent ltac:(unfold useAuth.resetPassword, useAuth.supabase_auth_resetPasswordForEmail);
       reflexivity).
  - intros password answer. cbv zeta.
    destruct (Js.truthy (Js.prop (sessionToUse_of JSON_parse w) "access_token")) eqn:Hguard.
    + destruct (updatePassword_attempted JSON_parse password answer w Hguard)
        as (Hr & _ & Ht & _).
      rewrite Hr. erewrite issued_app by exact Ht.
      destruct (Js.truthy (recoverySession_of JSON_parse w)); destruct answer; simpl;
        repeat split.
    + unfold issued, eval, exec.
      rewrite updatePassword_guarded by exact Hguard. simpl.
      rewrite drop_app_length. simpl. repeat split.
  - intros email password [e|]; simpl;
      (repeat split;
       sent ltac:(unfold useAuth.signIn, useAuth.supabase_auth_signInWithPassword);
       reflexivity).
  - intros answer; simpl.
    repeat split; sent ltac:(unfold useAuth.signOut, useAuth.supabase_auth_signOut);
      reflexivity.
Qed.

(** C8, as the spec words it, fails: a successful [signIn] shows no
    notification, and [signOut] shows none and has no result whatever the
    provider answers. *)
Lemma signIn_success_and_signOut_are_silent :
  let w := Example.page "" [] in
  eval (useAuth.signIn "alice@example.com" "secret" None) w = None
  ∧ notifications (issued (useAuth.signIn "alice@example.com" "secret" None) w) = []
  ∧ notifications
      (issued (useAuth.signOut (Some {| message := "Network request failed" |})) w) = []
  ∧ eval (useAuth.signOut (Some {| message := "Network request failed" |})) w = ().
Proof. repeat split. Qed.

(** *** The reset-password page *)

(** C4.  When the page's handler performs [updatePassword] (the two inputs
    agree and have at least six characters, counted as [password.length]
    counts them) and it returns no error, the
    handler then signs the user out, so the adapter's cells are cleared, and
    schedules the redirect to [/auth] 3000 ms later; the page shows the
    success card.  When that timer fires the browser is sent to [/auth]. *)
Theorem password_reset_success_signs_out (JSON_parse : string → option Js.value)
    (updateUser_answer signOut_answer : option AuthError)
    (st : ResetPassword.State) (w : World) :
  ResetPassword.password st = ResetPassword.confirmPassword st →
  (6 ≤ Js.length (ResetPassword.password st))%nat →
  eval (useAuth.updatePassword JSON_parse (ResetPassword.password st) updateUser_answer) w
    = None →
  let update := useAuth.updatePassword JSON_parse (ResetPassword.password st)
                  updateUser_answer in
  let m := ResetPassword.handlePasswordReset JSON_parse updateUser_answer signOut_answer st in
  issued m w
    = issued update w ++ [Auth signOut_call; SetTimeout (redirect_to "/auth") 3000]
  ∧ (user (exec m w), session (exec m w), userRole (exec m w)) = (None, None, None)
  ∧ ResetPassword.isSuccess (eval m w) = true
  ∧ ResetPassword.render (eval m w) (exec m w) = ResetPassword.success_card
  ∧ ∀ roleData,
      issued (run_callback (redirect_to "/auth") roleData) (exec m w) = [LocationHref "/auth"].
Proof.
  intros Hsame Hlen Hok. cbv zeta.
  destruct (updatePassword_trace JSON_parse (ResetPassword.password st) updateUser_answer w)
    as [es Hes].
  assert (ResetPassword.handlePasswordReset JSON_parse updateUser_answer signOut_answer st w
          = (ResetPassword.set_isLoading false
               (ResetPassword.set_isSuccess true
                  (ResetPassword.set_error "" (ResetPassword.set_isLoading true st))),
             add_effect (SetTimeout (redirect_to "/auth") 3000)
               (set_userRole None (set_session None (set_user None
                  (add_effect (Auth signOut_call)
                     (exec (useAuth.updatePassword JSON_parse (ResetPassword.password st)
                              updateUser_answer) w))))))) as Hrun.
  { unfold ResetPassword.handlePasswordReset.
    apply Nat.ltb_ge in Hlen. rewrite Hlen.
    apply String.eqb_eq in Hsame. rewrite Hsame. simpl.
    unfold eval, exec in *. unfold mbind, M_bind at 1. simpl.
    destruct (useAuth.updatePassword JSON_parse (ResetPassword.password st)
                updateUser_answer w) as [r w1] eqn:E.
    simpl in Hok. subst r. reflexivity. }
  assert (eval (ResetPassword.handlePasswordReset JSON_parse updateUser_answer
                  signOut_answer st) w
          = ResetPassword.set_isLoading false
              (ResetPassword.set_isSuccess true
                 (ResetPassword.set_error "" (ResetPassword.set_isLoading true st)))) as Hst.
  { unfold eval. rewrite Hrun. reflexivity. }
  assert (exec (ResetPassword.handlePasswordReset JSON_parse updateUser_answer
                  signOut_answer st) w
          = add_effect (SetTimeout (redirect_to "/auth") 3000)
              (set_userRole None (set_session None (set_user None
                 (add_effect (Auth signOut_call)
                    (exec (useAuth.updatePassword JSON_parse (ResetPassword.password st)
                             updateUser_answer) w)))))) as Hw.
  { unfold exec at 1. rewrite Hrun. reflexivity. }
  unfold issued at 1. rewrite !Hst, !Hw. clear Hrun Hst Hw.
  split; [|split; [|split; [|split]]].
  - simpl. rewrite Hes, <- !app_assoc, drop_app_length.
    erewrite issued_app by exact Hes. reflexivity.
  - reflexivity.
  - reflexivity.
  - reflexivity.
  - intros roleData. apply issued_app. reflexivity.
Qed.

Lemma password_reset_success_signs_out_witness :
  let w := set_user (Some Example.alice) (set_session (Some Example.alice_session)
             (Example.page "?type=recovery" [("type", "recovery")])) in
  let st := {| ResetPassword.password := "correct horse";
               ResetPassword.confirmPassword := "correct horse";
               ResetPassword.isLoading := false; ResetPassword.isSuccess := false;
               ResetPassword.error := "" |} in
  let m := ResetPassword.handlePasswordReset Example.JSON_parse None None st in
  provider_calls (issued m w) = [updateUser_call "correct horse"; signOut_call]
  ∧ (user (exec m w), session (exec m w), userRole (exec m w)) = (None, None, None)
  ∧ ResetPassword.render (eval m w) (exec m w) = ResetPassword.success_card
  ∧ issued (run_callback (redirect_to "/auth") None) (exec m w) = [LocationHref "/auth"].
Proof.
  intros w st m.
  destruct (password_reset_success_signs_out Example.JSON_parse None None st w)
    as (Hsent & Hcells & _ & Hview & Htimer).
  - reflexivity.
  - vm_compute. lia.
  - reflexivity.
  - split; [|split; [exact Hcells|split; [exact Hview|exact (Htimer None)]]].
    cbv zeta in Hsent. fold m in Hsent. rewrite Hsent. reflexivity.
Defined.

(** The whole recovery flow on the example page: the landing page intercepts
    the sign-in and stores the session; after the redirect the reset page
    shows the form, and a submission applies the stored session, updates the
    password, clears the key, signs out and schedules the redirect. *)
Example recovery_link_end_to_end :
  let landing := Example.page "?type=recovery" [("type", "recovery")] in
  let intercepted :=
    exec (useAuth.onAuthStateChange Example.JSON_stringify
            (eval useAuth.useEffect_mount landing) "SIGNED_IN"
            (Some Example.recovery_session) None)
         (exec useAuth.useEffect_mount landing) in
  let reloaded :=
    set_localStorage (λ _, localStorage intercepted)
      (Example.page "?type=recovery" [("type", "recovery")]) in
  let st := ResetPassword.set_confirmPassword "correct horse"
              (ResetPassword.set_password "correct horse" ResetPassword.initial) in
  let m := ResetPassword.submit Example.JSON_parse None None st in
  ResetPassword.render st reloaded
  = ResetPassword.reset_card None ResetPassword.password_form
  ∧ issued m reloaded
    = [Auth (setSession_call (Js.Str "access-recovery") (Js.Str "refresh-recovery"));
       Auth (updateUser_call "correct horse");
       Toasted {| title := "Password updated";
                  description := "Your password has been successfully updated.";
                  variant := plain |};
       Auth signOut_call;
       SetTimeout (redirect_to "/auth") 3000]
  ∧ localStorage (exec m reloaded) !! "recovery_session" = None
  ∧ session (exec m reloaded) = None
  ∧ ResetPassword.render (eval m reloaded) (exec m reloaded) = ResetPassword.success_card.
Proof. repeat split. Qed.

Lemma URLSearchParams_get_Some (params : list (string * string)) (name v : string) :
  URLSearchParams_get params name = Some v → (name, v) ∈ params.
Proof.
  induction params as [|[k v'] rest IH]; simpl; [discriminate|].
  destruct (String.eqb k name) eqn:Hk.
  - apply String.eqb_eq in Hk. intros [= ->]. subst k. apply list_elem_of_here.
  - intros Hrest. apply list_elem_of_further, IH, Hrest.
Qed.

Lemma no_recovery_parameters_flow (params : list (string * string)) :
  no_recovery_parameters params → ResetPassword.isPasswordResetSession params = false.
Proof.
  intros (Htype & Haccess & Hrefresh).
  unfold ResetPassword.isPasswordResetSession.
  rewrite !orb_false_iff, bool_decide_eq_false. repeat split.
  - intros Hget. apply Htype, URLSearchParams_get_Some, Hget.
  - apply not_true_is_false. rewrite nullable_truthy_spec. intros (v & Hget & _).
    apply Haccess. unfold carries_param.
    apply (list_elem_of_fmap_2 fst _ _ (URLSearchParams_get_Some _ _ _ Hget)).
  - apply not_true_is_false. rewrite nullable_truthy_spec. intros (v & Hget & _).
    apply Hrefresh. unfold carries_param.
    apply (list_elem_of_fmap_2 fst _ _ (URLSearchParams_get_Some _ _ _ Hget)).
Qed.

(** Without indicators no event of the page touches the world, and the
    success flag keeps the value it has. *)
Lemma reset_page_steps_inert (JSON_parse : string → option Js.value) (w : World)
    (evs : list ResetPassword.Event) (st : ResetPassword.State) :
  ResetPassword.isPasswordResetSession (location_params w) = false →
  exec (ResetPassword.steps JSON_parse evs st) w = w
  ∧ ResetPassword.isSuccess (eval (ResetPassword.steps JSON_parse evs st) w)
    = ResetPassword.isSuccess st.
Proof.
  intros Hflow. revert st.
  induction evs as [|ev rest IH]; intros st; [split; reflexivity|].
  assert (∃ st', ResetPassword.step JSON_parse ev st w = (st', w)
                 ∧ ResetPassword.isSuccess st' = ResetPassword.isSuccess st)
    as (st' & Hstep & Hflag).
  { destruct ev as [value|value|a b|]; simpl.
    - eexists. split; reflexivity.
    - eexists. split; reflexivity.
    - unfold ResetPassword.submit, ResetPassword.render. rewrite Hflow. simpl.
      exists st. destruct (bool_decide (is_Some (user w))); simpl;
        [|destruct (ResetPassword.isSuccess st)]; split; reflexivity.
    - unfold ResetPassword.useEffect. run. rewrite Hflow. simpl.
      eexists. split; reflexivity. }
  unfold exec, eval in *. simpl. unfold mbind, M_bind. rewrite Hstep.
  destruct (IH st') as [Hw Hs]. rewrite Hw, Hs, Hflag. split; reflexivity.
Qed.

(** C6, as the code has it.  On a URL without recovery indicators, whatever
    the user does on the page, nothing is sent and nothing stored, so
    [updatePassword] is never invoked; and the page never renders the
    password form: it redirects a signed-in user to the main page, and shows
    anyone else the invalid-or-expired-link state. *)
Theorem reset_page_without_indicators (JSON_parse : string → option Js.value) (w : World)
    (evs : list ResetPassword.Event) :
  no_recovery_parameters (location_params w) →
  let page := ResetPassword.steps JSON_parse evs ResetPassword.initial in
  exec page w = w
  ∧ match user w with
    | Some _ => ResetPassword.render (eval page w) w = ResetPassword.Navigate "/"
    | None => ∃ alert,
        ResetPassword.render (eval page w) w
        = ResetPassword.reset_card alert ResetPassword.invalid_link
    end.
Proof.
  intros Hnone. apply no_recovery_parameters_flow in Hnone. cbv zeta.
  destruct (reset_page_steps_inert JSON_parse w evs ResetPassword.initial Hnone)
    as [Hw Hflag].
  split; [exact Hw|].
  unfold ResetPassword.render. rewrite Hnone, Hflag. simpl.
  destruct (user w) as [u|]; simpl.
  - reflexivity.
  - eauto.
Qed.

Lemma reset_page_without_indicators_witness :
  let w := Example.page "" [] in
  let page := ResetPassword.steps Example.JSON_parse
                [ResetPassword.after_render;
                 ResetPassword.edit_password "correct horse";
                 ResetPassword.edit_confirmPassword "correct horse";
                 ResetPassword.submit_form None None]
                ResetPassword.initial in
  no_recovery_parameters (location_params w)
  ∧ exec page w = w
  ∧ ResetPassword.render (eval page w) w
    = ResetPassword.reset_card
        (Some "Invalid or expired reset link. Please request a new password reset.")
        ResetPassword.invalid_link.
Proof.
  intros w page.
  assert (no_recovery_parameters (location_params w)) as Hnone.
  { repeat split; apply not_elem_of_nil. }
  destruct (reset_page_without_indicators Example.JSON_parse w
              [ResetPassword.after_render;
               ResetPassword.edit_password "correct horse";
               ResetPassword.edit_confirmPassword "correct horse";
               ResetPassword.submit_form None None] Hnone) as [Hw _].
  split; [exact Hnone|]. split; [exact Hw|]. reflexivity.
Defined.

(** C6, as the spec words it, fails: on a URL without indicators a
    signed-in user is not shown the invalid-link state but is redirected to
    the main page. *)
Lemma reset_page_redirects_signed_in_user :
  let w := set_user (Some Example.alice) (Example.page "" []) in
  no_recovery_parameters (location_params w)
  ∧ ResetPassword.render ResetPassword.initial w = ResetPassword.Navigate "/"
  ∧ ResetPassword.render (eval (ResetPassword.useEffect ResetPassword.initial) w) w
    = ResetPassword.Navigate "/".
Proof.
  split; [|split; reflexivity].
  repeat split; apply not_elem_of_nil.
Qed.

(** *** The add-referral forms *)

(** C7.  A submission with an empty client name issues no request and
    changes nothing: in the referrer dashboard the browser does not run the
    form's handler, and in the admin panel the button is disabled, as it is
    while no user is selected. *)
Theorem empty_client_name_sends_no_insert (w : World) :
  (∀ (email_input_valid : string → bool) insert_error fetch_answer
     (st : ReferrerDashboard.State),
      client_name (ReferrerDashboard.newReferral st) = "" →
      ReferrerDashboard.submit email_input_valid insert_error fetch_answer st w = (st, w))
  ∧ (∀ insert_error profiles_answer referrals_answer (st : AdminPanel.State),
      client_name (AdminPanel.newReferral st) = "" ∨ AdminPanel.newReferral_user_id st = "" →
      AdminPanel.add_button_disabled st = true
      ∧ AdminPanel.click_add insert_error profiles_answer referrals_answer st w = (st, w)).
Proof.
  split.
  - intros valid insert_error fetch_answer st Hname.
    unfold ReferrerDashboard.submit, ReferrerDashboard.form_valid.
    rewrite Hname. simpl. rewrite andb_false_r. reflexivity.
  - intros insert_error profiles_answer referrals_answer st Hempty.
    assert (AdminPanel.add_button_disabled st = true) as Hdisabled.
    { unfold AdminPanel.add_button_disabled.
      destruct Hempty as [-> | ->]; simpl; rewrite ?orb_true_r; reflexivity. }
    split; [exact Hdisabled|].
    unfold AdminPanel.click_add. rewrite Hdisabled. reflexivity.
Qed.

Lemma empty_client_name_sends_no_insert_witness :
  let w := set_user (Some Example.alice) (Example.page "" []) in
  let form := {| client_name := ""; client_email := "lead@example.com";
                 client_phone := "555-0100"; client_address := "" |} in
  let rst := {| ReferrerDashboard.referrals := []; ReferrerDashboard.loading := false;
                ReferrerDashboard.newReferral := form;
                ReferrerDashboard.isAdding := false |} in
  let ast := {| AdminPanel.users := []; AdminPanel.referrals := [];
                AdminPanel.loading := false;
                AdminPanel.newReferral_user_id := "user-alice";
                AdminPanel.newReferral := form; AdminPanel.isAdding := false |} in
  exec (ReferrerDashboard.submit (λ _, true) None (Store.answered []) rst) w = w
  ∧ exec (AdminPanel.click_add None (Store.answered []) (Store.answered []) ast) w = w.
Proof.
  intros w form rst ast.
  destruct (empty_client_name_sends_no_insert w) as [Hform Hbutton].
  split.
  - unfold exec. rewrite (Hform (λ _, true) None (Store.answered []) rst eq_refl).
    reflexivity.
  - unfold exec.
    destruct (Hbutton None (Store.answered []) (Store.answered []) ast (or_introl eq_refl))
      as [_ Hclick].
    rewrite Hclick. reflexivity.
Defined.

(** With a client name the same submissions do reach the store. *)
Example named_client_is_inserted :
  let w := set_user (Some Example.alice) (Example.page "" []) in
  let form := {| client_name := "Lee"; client_email := ""; client_phone := "";
                 client_address := "" |} in
  let rst := {| ReferrerDashboard.referrals := []; ReferrerDashboard.loading := false;
                ReferrerDashboard.newReferral := form;
                ReferrerDashboard.isAdding := false |} in
  let ast := {| AdminPanel.users := []; AdminPanel.referrals := [];
                AdminPanel.loading := false;
                AdminPanel.newReferral_user_id := "user-alice";
                AdminPanel.newReferral := form; AdminPanel.isAdding := false |} in
  let row := {| insert_user_id := Some "user-alice"; insert_form := form |} in
  store_requests (trace (exec (ReferrerDashboard.submit (λ _, true) None
                                 (Store.answered []) rst) w))
    = [insert_referral row; select_referrals_eq_user (Some "user-alice")]
  ∧ store_requests (trace (exec (AdminPanel.click_add None (Store.answered [])
                                   (Store.answered []) ast) w))
    = [insert_referral row; select_profiles_all; select_referrals_all].
Proof. split; reflexivity. Qed.

(** *** Mutations of the referrer dashboard *)

(** C9.  A successful insert of a referral is followed by the listing
    request, and the dashboard's list afterwards is what that request
    answered (or the list as it was, when the request fails): never the old
    list with the new row added.  A successful save of the payment details
    is followed by the profile request in the same way. *)
Theorem mutations_refetch (w : World) :
  (∀ fetch_answer (st : ReferrerDashboard.State),
      let m := ReferrerDashboard.handleAddReferral None fetch_answer st in
      store_requests (issued m w)
      = [insert_referral {| insert_user_id := Supabase.id <$> user w;
                            insert_form := ReferrerDashboard.newReferral st |};
         select_referrals_eq_user (Supabase.id <$> user w)]
      ∧ ReferrerDashboard.referrals (eval m w)
        = match Store.error fetch_answer with
          | Some _ => ReferrerDashboard.referrals st
          | None => default [] (Store.data fetch_answer)
          end)
  ∧ (∀ fetch_answer (st : PayoutDashboard.State) p,
      PayoutDashboard.userProfile st = Some p →
      PayoutDashboard.paymentMethod st ≠ "" →
      Store.profile_id p ≠ "" →
      let m := PayoutDashboard.handleSavePaymentDetails None fetch_answer st in
      store_requests (issued m w)
      = [update_profile (Store.profile_id p) (PayoutDashboard.paymentMethod st)
                        (PayoutDashboard.paymentDetails st);
         select_profile_eq_user (Supabase.id <$> user w)]
      ∧ PayoutDashboard.userProfile (eval m w)
        = match Store.error fetch_answer with
          | Some _ => PayoutDashboard.userProfile st
          | None => Store.data fetch_answer
          end).
Proof.
  split.
  - intros [d [e|]] st; cbv zeta; split.
    + sent ltac:(unfold ReferrerDashboard.handleAddReferral,
                   ReferrerDashboard.fetchReferrals).
      reflexivity.
    + reflexivity.
    + sent ltac:(unfold ReferrerDashboard.handleAddReferral,
                   ReferrerDashboard.fetchReferrals).
      reflexivity.
    + reflexivity.
  - intros [d e] st p Hp Hmethod Hid. cbv zeta.
    assert (Js.string_truthy (PayoutDashboard.paymentMethod st) = true) as Hm.
    { unfold Js.string_truthy. apply String.eqb_neq in Hmethod. rewrite Hmethod. reflexivity. }
    assert (Js.string_truthy (Store.profile_id p) = true) as Hi.
    { unfold Js.string_truthy. apply String.eqb_neq in Hid. rewrite Hid. reflexivity. }
    assert (PayoutDashboard.handleSavePaymentDetails None {| Store.data := d; Store.error := e |} st w
            = (PayoutDashboard.set_isSavingPayment false
                 (eval (PayoutDashboard.fetchUserProfile {| Store.data := d; Store.error := e |}
                          (PayoutDashboard.set_isSavingPayment true st))
                    (add_effect (Toasted {| title := "Success";
                                            description := "Payment details saved successfully";
                                            variant := plain |})
                       (add_effect (Store (update_profile (Store.profile_id p)
                                             (PayoutDashboard.paymentMethod st)
                                             (PayoutDashboard.paymentDetails st))) w))),
               add_effect (Store (select_profile_eq_user (Supabase.id <$> user w)))
                 (add_effect (Toasted {| title := "Success";
                                         description := "Payment details saved successfully";
                                         variant := plain |})
                    (add_effect (Store (update_profile (Store.profile_id p)
                                          (PayoutDashboard.paymentMethod st)
                                          (PayoutDashboard.paymentDetails st))) w)))) as Hrun.
    { unfold PayoutDashboard.handleSavePaymentDetails. rewrite Hp, Hm, Hi. simpl.
      unfold PayoutDashboard.fetchUserProfile. run.
      destruct e as [e|]; [reflexivity|].
      destruct d as [q|]; [|reflexivity].
      destruct (Store.payment_method q) as [method|]; [|reflexivity].
      destruct (Js.string_truthy method); reflexivity. }
    split.
    + erewrite issued_app;
        [|unfold exec; rewrite Hrun; simpl; rewrite <- !app_assoc; reflexivity].
      reflexivity.
    + unfold eval at 1. rewrite Hrun. simpl.
      unfold PayoutDashboard.fetchUserProfile. run.
      destruct e as [e|]; [reflexivity|].
      destruct d as [q|]; [|reflexivity].
      destruct (Store.payment_method q) as [method|]; [|reflexivity].
      destruct (Js.string_truthy method); reflexivity.
Qed.

(** An insert the store refuses is reported and not followed by a listing;
    the list stays as it was. *)
Example refused_insert_is_not_refetched :
  let w := set_user (Some Example.alice) (Example.page "" []) in
  let st := {| ReferrerDashboard.referrals := [Example.referral "r1" "user-alice" "Lee" 100];
               ReferrerDashboard.loading := false;
               ReferrerDashboard.newReferral :=
                 {| client_name := "Ray"; client_email := ""; client_phone := "";
                    client_address := "" |};
               ReferrerDashboard.isAdding := false |} in
  let m := ReferrerDashboard.handleAddReferral
             (Some {| Store.store_message := "row violates policy" |})
             (Store.answered []) st in
  store_requests (issued m w)
  = [insert_referral {| insert_user_id := Some "user-alice";
                        insert_form := ReferrerDashboard.newReferral st |}]
  ∧ ReferrerDashboard.referrals (eval m w) = ReferrerDashboard.referrals st
  ∧ (variant <$> notifications (issued m w)) = [destructive].
Proof. repeat split. Qed.

Lemma mutations_refetch_witness :
  let w := set_user (Some Example.alice) (Example.page "" []) in
  let profile := {| Store.profile_id := "profile-1"; Store.profile_user_id := "user-alice";
                    Store.name := "Alice"; Store.payment_method := None;
                    Store.payment_details := Js.Null; Store.profile_created_at := 10 |} in
  let saved := {| Store.profile_id := "profile-1"; Store.profile_user_id := "user-alice";
                  Store.name := "Alice"; Store.payment_method := Some "paypal";
                  Store.payment_details := Js.Obj [("email", Js.Str "alice@example.com")];
                  Store.profile_created_at := 10 |} in
  let st := {| PayoutDashboard.userProfile := Some profile;
               PayoutDashboard.paymentMethod := "paypal";
               PayoutDashboard.paymentDetails := Js.Obj [("email", Js.Str "alice@example.com")];
               PayoutDashboard.isSavingPayment := false |} in
  let m := PayoutDashboard.handleSavePaymentDetails None (Store.answered saved) st in
  store_requests (issued m w)
  = [update_profile "profile-1" "paypal" (Js.Obj [("email", Js.Str "alice@example.com")]);
     select_profile_eq_user (Some "user-alice")]
  ∧ PayoutDashboard.userProfile (eval m w) = Some saved.
Proof.
  intros w profile saved st m.
  destruct (mutations_refetch w) as [_ Hsave].
  apply (Hsave (Store.answered saved) st profile).
  - reflexivity.
  - discriminate.
  - discriminate.
Defined.

(** *** The referral listing and the row policies *)

#[global] Instance newer_first_total : Total Store.newer_first.
Proof. intros a b. unfold Store.newer_first. lia. Qed.

Lemma filter_all {A} (P : A → Prop) `{∀ x, Decision (P x)} (l : list A) :
  (∀ x, x ∈ l → P x) → filter P l = l.
Proof.
  induction l as [|x l IH]; intros Hall; [reflexivity|].
  rewrite filter_cons_True by (apply Hall, list_elem_of_here).
  f_equal. apply IH. intros y Hy. apply Hall, list_elem_of_further, Hy.
Qed.

Lemma fst_paired {A B} (f : A → B) (l : list A) : ((λ a, (a, f a)) <$> l).*1 = l.
Proof. induction l as [|a l IH]; simpl; [reflexivity|]. f_equal. exact IH. Qed.

(** C5.  The listing of the referrer dashboard asks for the rows whose
    [user_id] is the caller's id, newest first.  Whoever the store takes the
    caller for, every row it answers is a row of the table with that
    [user_id], never a row of another user; for the caller themself these
    are all of their rows; and they come ordered by [created_at],
    descending.  The admin panel's listing, which has no such filter, is cut
    down by the row policies alone: for a caller with the admin role it is
    the whole table, in the same order. *)
Theorem referral_listing_rows (db : Store.Database) (caller : User)
    (st : ReferrerDashboard.State) (w : World) :
  user w = Some caller →
  (∀ uid,
      let rows := Store.referrals_of_user db uid (Supabase.id caller) in
      let m := ReferrerDashboard.fetchReferrals (Store.answered rows) st in
      store_requests (issued m w) = [select_referrals_eq_user (Some (Supabase.id caller))]
      ∧ ReferrerDashboard.referrals (eval m w) = rows
      ∧ (∀ r, r ∈ rows → r ∈ Store.referrals db ∧ Store.user_id r = Supabase.id caller)
      ∧ Sorted Store.newer_first rows)
  ∧ (∀ r, r ∈ Store.referrals_of_user db (Some (Supabase.id caller)) (Supabase.id caller)
          ↔ r ∈ Store.referrals db ∧ Store.user_id r = Supabase.id caller)
  ∧ (∀ uid, Store.has_role db uid Store.admin = true →
      (Store.referrals_with_profiles db uid).*1 ≡ₚ Store.referrals db
      ∧ Sorted Store.newer_first (Store.referrals_with_profiles db uid).*1).
Proof.
  intros Huser. split; [|split].
  - intros uid. cbv zeta. split; [|split; [|split]].
    + erewrite issued_app;
        [|unfold ReferrerDashboard.fetchReferrals; run; rewrite Huser; simpl;
          rewrite <- ?app_assoc; reflexivity].
      reflexivity.
    + reflexivity.
    + intros r. unfold Store.referrals_of_user, Store.order_created_at_desc.
      rewrite merge_sort_Permutation, !list_elem_of_filter.
      unfold Store.visible_referrals. rewrite list_elem_of_filter. tauto.
    + apply Sorted_merge_sort. apply _.
  - intros r. unfold Store.referrals_of_user, Store.order_created_at_desc.
    rewrite merge_sort_Permutation, !list_elem_of_filter.
    unfold Store.visible_referrals. rewrite list_elem_of_filter.
    unfold Store.referrals_select_policy, Store.users_can_view_own.
    split; [tauto|]. intros [Hin Hown]. repeat split; try assumption.
    rewrite Hown. rewrite bool_decide_eq_true_2 by reflexivity. reflexivity.
  - intros uid Hadmin.
    unfold Store.referrals_with_profiles. rewrite fst_paired.
    unfold Store.order_created_at_desc. split.
    + rewrite merge_sort_Permutation. unfold Store.visible_referrals.
      rewrite filter_all; [reflexivity|].
      intros r _. unfold Store.referrals_select_policy, Store.admins_can_view_all.
      rewrite Hadmin. apply orb_true_r.
    + apply Sorted_merge_sort. apply _.
Qed.

Lemma referral_listing_rows_witness :
  let w := set_user (Some Example.alice) (Example.page "" []) in
  let st := {| ReferrerDashboard.referrals := []; ReferrerDashboard.loading := true;
               ReferrerDashboard.newReferral := empty_form;
               ReferrerDashboard.isAdding := false |} in
  let rows := Store.referrals_of_user Example.db (Some "user-alice") "user-alice" in
  let m := ReferrerDashboard.fetchReferrals (Store.answered rows) st in
  ReferrerDashboard.referrals (eval m w)
  = [Example.referral "r3" "user-alice" "Ray" 300; Example.referral "r1" "user-alice" "Lee" 100]
  ∧ Store.referrals_of_user Example.db (Some "user-bob") "user-alice" = []
  ∧ (Store.referrals_with_profiles Example.db (Some "user-carol")).*1
    ≡ₚ Store.referrals Example.db
  ∧ (Store.referrals_with_profiles Example.db (Some "user-carol")).*1
    = [Example.referral "r3" "user-alice" "Ray" 300;
       Example.referral "r2" "user-bob" "Kim" 200;
       Example.referral "r1" "user-alice" "Lee" 100].
Proof.
  intros w st rows m.
  destruct (referral_listing_rows Example.db Example.alice st w eq_refl)
    as (Hlisting & _ & Hadmin).
  destruct (Hlisting (Some "user-alice")) as (_ & Hlist & _ & _).
  destruct (Hadmin (Some "user-carol") eq_refl) as [Hall _].
  split; [exact Hlist|]. split; [reflexivity|]. split; [exact Hall|]. reflexivity.
Defined.

(** * Further properties of the adapter and the pages around it *)

Section adapter_runs.

Variable JSON_stringify : Js.value → string.
Variable JSON_parse : string → option Js.value.

Lemma updatePassword_cells (password : string) (answer : option AuthError) (w : World) :
  let w' := exec (useAuth.updatePassword JSON_parse password answer) w in
  user w' = user w ∧ session w' = session w ∧ userRole w' = userRole w
  ∧ loading w' = loading w.
Proof.
  cbv zeta.
  destruct (Js.truthy (Js.prop (sessionToUse_of JSON_parse w) "access_token")) eqn:Hguard.
  - revert Hguard. unfold sessionToUse_of, recoverySession_of. intros Hguard.
    unfold useAuth.updatePassword, useAuth.supabase_auth_updateUser,
      useAuth.supabase_auth_setSession. run.
    rewrite Hguard. simpl.
    destruct (Js.truthy (useAuth.parse_recovery_session JSON_parse
                           (localStorage w !! "recovery_session")));
      destruct answer; simpl; auto.
  - unfold exec. rewrite updatePassword_guarded by exact Hguard. simpl. auto.
Qed.

Lemma apply_consistent (flow : bool) (op : Adapter.Op) (w : World) :
  consistent w → consistent (exec (Adapter.apply JSON_stringify JSON_parse flow op) w).
Proof.
  unfold consistent. intros Hw.
  destruct op as [event delivered a|current|cb roleData|e p n a|e p a|a|e a|p a].
  - unfold Adapter.apply, useAuth.onAuthStateChange, useAuth.supabase_auth_signOut. run.
    destruct (flow && bool_decide (event = "SIGNED_IN")); simpl; [exact Hw|].
    destruct delivered as [s|]; simpl; [destruct flow|]; reflexivity.
  - unfold Adapter.apply, useAuth.getSession_then. run.
    destruct current as [s|]; reflexivity.
  - unfold Adapter.apply, run_callback, useAuth.fetchUserRole. run.
    destruct cb; exact Hw.
  - unfold Adapter.apply, useAuth.signUp, useAuth.supabase_auth_signUp. run.
    destruct a as [[u|] [s|]|err]; exact Hw.
  - unfold Adapter.apply, useAuth.signIn, useAuth.supabase_auth_signInWithPassword. run.
    destruct a; exact Hw.
  - unfold Adapter.apply, useAuth.signOut, useAuth.supabase_auth_signOut. run. reflexivity.
  - unfold Adapter.apply, useAuth.resetPassword,
      useAuth.supabase_auth_resetPasswordForEmail. run.
    destruct a; exact Hw.
  - destruct (updatePassword_cells p a w) as (Hu & Hs & _).
    unfold Adapter.apply. unfold exec in *. unfold mbind, M_bind, mret, M_ret.
    destruct (useAuth.updatePassword JSON_parse p a w) as [r w1]. simpl in *.
    rewrite Hu, Hs. exact Hw.
Qed.

(** X1.  Whatever happens to the adapter (events, the session answer, timers,
    calls of its operations, in any order and under either flow), the
    [user] cell is the user of the [session] cell: the two are never out of
    step. *)
Theorem adapter_user_is_session_user (flow : bool) (ops : list Adapter.Op) (w : World) :
  consistent w →
  consistent (exec (Adapter.run JSON_stringify JSON_parse flow ops) w).
Proof.
  revert w. induction ops as [|op rest IH]; intros w Hw; [exact Hw|].
  simpl. unfold exec, mbind, M_bind. unfold Adapter.step at 1.
  destruct (Adapter.enabled op w).
  - pose proof (apply_consistent flow op w Hw) as Hstep. unfold exec in Hstep.
    destruct (Adapter.apply JSON_stringify JSON_parse flow op w) as [[] w1].
    apply IH, Hstep.
  - apply IH, Hw.
Qed.

End adapter_runs.

Lemma adapter_user_is_session_user_witness :
  let w := exec useAuth.useEffect_mount (Example.page "" []) in
  let ops := [Adapter.session_answer (Some Example.alice_session);
              Adapter.fire (fetch_user_role "user-alice") (Some "admin");
              Adapter.deliver "TOKEN_REFRESHED" (Some Example.recovery_session) None;
              Adapter.call_updatePassword "correct horse" None] in
  let w' := exec (Adapter.run Example.JSON_stringify Example.JSON_parse false ops) w in
  consistent w
  ∧ session w' = Some Example.recovery_session
  ∧ consistent w'.
Proof.
  intros w ops w'.
  assert (consistent w) as Hw by (vm_compute; reflexivity).
  split; [exact Hw|]. split; [vm_compute; reflexivity|].
  exact (adapter_user_is_session_user Example.JSON_stringify Example.JSON_parse
           false ops w Hw).
Defined.

(** *** A recovery page never resolves a role *)

Lemma quiet_app (a b : list Effect) : quiet (a ++ b) = quiet a && quiet b.
Proof. apply forallb_app. Qed.

Lemma quiet_not_requested (es : list Effect) :
  quiet es = true → Adapter.requested_session es = false.
Proof.
  induction es as [|e es IH]; simpl; [reflexivity|].
  intros H. apply andb_true_iff in H as [He Hes]. rewrite (IH Hes).
  destruct e as [[]| | | |]; try discriminate He; reflexivity.
Qed.

Lemma quiet_not_scheduled (cb : Callback) (es : list Effect) :
  quiet es = true → Adapter.scheduled cb es = false.
Proof.
  induction es as [|e es IH]; simpl; [reflexivity|].
  intros H. apply andb_true_iff in H as [He Hes]. rewrite (IH Hes).
  destruct e as [[]| | | |]; try discriminate He; reflexivity.
Qed.

Lemma quiet_no_store_request (es : list Effect) :
  quiet es = true → store_requests es = [].
Proof.
  induction es as [|e es IH]; simpl; [reflexivity|].
  intros H. apply andb_true_iff in H as [He Hes]. unfold store_requests in *. simpl.
  destruct e as [[]| | | |]; try discriminate He; simpl; apply IH, Hes.
Qed.

Section recovery_page.

Variable JSON_stringify : Js.value → string.
Variable JSON_parse : string → option Js.value.

Lemma updatePassword_quiet (password : string) (answer : option AuthError) (w : World) :
  quiet (trace w) = true →
  quiet (trace (exec (useAuth.updatePassword JSON_parse password answer) w)) = true.
Proof.
  intros Hq.
  destruct (Js.truthy (Js.prop (sessionToUse_of JSON_parse w) "access_token")) eqn:Hguard.
  - destruct (updatePassword_attempted JSON_parse password answer w Hguard)
      as (_ & _ & Ht & _).
    rewrite Ht, !quiet_app, Hq.
    destruct (Js.truthy (recoverySession_of JSON_parse w)); reflexivity.
  - unfold exec. rewrite updatePassword_guarded by exact Hguard. simpl.
    rewrite quiet_app, Hq. reflexivity.
Qed.

Lemma recovery_step (op : Adapter.Op) (w : World) :
  role_unresolved w →
  role_unresolved (exec (Adapter.step JSON_stringify JSON_parse true op) w).
Proof.
  intros (Hrole & Hload & Hq). unfold exec, Adapter.step.
  destruct op as [event delivered a|current|cb roleData|e p n a|e p a|a|e a|p a]; simpl.
  - unfold role_unresolved, useAuth.onAuthStateChange, useAuth.supabase_auth_signOut. run.
    destruct (bool_decide (event = "SIGNED_IN")); simpl.
    + rewrite !quiet_app, Hq. auto.
    + destruct delivered; simpl; auto.
  - rewrite (quiet_not_requested _ Hq). simpl. repeat split; assumption.
  - rewrite (quiet_not_scheduled cb _ Hq). simpl. repeat split; assumption.
  - unfold role_unresolved, useAuth.signUp, useAuth.supabase_auth_signUp. run.
    destruct a as [[u|] [s|]|err]; simpl; rewrite !quiet_app, Hq; auto.
  - unfold role_unresolved, useAuth.signIn, useAuth.supabase_auth_signInWithPassword. run.
    destruct a; simpl; rewrite !quiet_app, Hq; auto.
  - unfold role_unresolved, useAuth.signOut, useAuth.supabase_auth_signOut. run.
    rewrite !quiet_app, Hq; auto.
  - unfold role_unresolved, useAuth.resetPassword,
      useAuth.supabase_auth_resetPasswordForEmail. run.
    destruct a; simpl; rewrite !quiet_app, Hq; auto.
  - pose proof (updatePassword_quiet p a w Hq) as Hq'.
    destruct (updatePassword_cells JSON_parse p a w) as (_ & _ & Hr & Hl).
    unfold exec in *. unfold mbind, M_bind, mret, M_ret.
    destruct (useAuth.updatePassword JSON_parse p a w) as [r w1]. simpl in *.
    unfold role_unresolved. rewrite Hr, Hl. auto.
Qed.

Lemma recovery_run (ops : list Adapter.Op) (w : World) :
  role_unresolved w →
  role_unresolved (exec (Adapter.run JSON_stringify JSON_parse true ops) w).
Proof.
  revert w. induction ops as [|op rest IH]; intros w Hw; [exact Hw|].
  simpl. pose proof (recovery_step op w Hw) as Hstep.
  unfold exec, mbind, M_bind in *.
  destruct (Adapter.step JSON_stringify JSON_parse true op w) as [[] w1].
  apply IH, Hstep.
Qed.

(** X2.  On a page that mounts with recovery indicators, with no role yet
    and nothing sent, the adapter never resolves a role: whatever events
    arrive and whichever operations are called afterwards, [userRole] stays
    [null], [loading] is off, no request goes to the store, and so the main
    page can never show the admin panel. *)
Theorem recovery_page_never_resolves_role (ops : list Adapter.Op) (w : World) :
  recovery_indicators (location_params w) →
  userRole w = None →
  trace w = [] →
  let w' := exec (Adapter.mounted JSON_stringify JSON_parse ops) w in
  userRole w' = None
  ∧ loading w' = false
  ∧ store_requests (trace w') = []
  ∧ ∀ badge, Index.render w' ≠ Index.main badge Index.admin_panel.
Proof.
  intros Hflow Hrole Htrace. apply isRecoveryFlow_spec in Hflow. cbv zeta.
  assert (exec (Adapter.mounted JSON_stringify JSON_parse ops) w
          = exec (Adapter.run JSON_stringify JSON_parse true ops) (set_loading false w))
    as ->.
  { unfold Adapter.mounted, useAuth.useEffect_mount. run. rewrite Hflow. reflexivity. }
  destruct (recovery_run ops (set_loading false w)) as (Hr & Hl & Hq).
  { repeat split; simpl; [exact Hrole|rewrite Htrace; reflexivity]. }
  split; [exact Hr|]. split; [exact Hl|]. split; [apply quiet_no_store_request, Hq|].
  intros badge. unfold Index.render. rewrite Hl, Hr.
  destruct (user _); simpl; discriminate.
Qed.

End recovery_page.

Lemma recovery_page_never_resolves_role_witness :
  let w := Example.page "?type=recovery" [("type", "recovery")] in
  let ops := [Adapter.deliver "INITIAL_SESSION" (Some Example.alice_session) None;
              Adapter.fire (fetch_user_role "user-alice") (Some "admin");
              Adapter.deliver "SIGNED_IN" (Some Example.recovery_session) None;
              Adapter.call_updatePassword "correct horse" None] in
  let w' := exec (Adapter.mounted Example.JSON_stringify Example.JSON_parse ops) w in
  user w' = Some Example.alice
  ∧ userRole w' = None
  ∧ Index.render w' = Index.main None Index.referrer_dashboard.
Proof.
  intros w ops w'.
  destruct (recovery_page_never_resolves_role Example.JSON_stringify Example.JSON_parse
              ops w) as (Hr & _ & _ & _).
  - left. reflexivity.
  - reflexivity.
  - reflexivity.
  - split; [vm_compute; reflexivity|]. split; [exact Hr|]. vm_compute. reflexivity.
Defined.

(** *** The loading flag and the role lookup *)

Lemma useEffect_mount_result (w : World) :
  useAuth.useEffect_mount w
  = (useAuth.isRecoveryFlow (location_params w),
     if useAuth.isRecoveryFlow (location_params w) then set_loading false w
     else add_effect (Auth getSession_call) w).
Proof.
  unfold useAuth.useEffect_mount. run.
  destruct (useAuth.isRecoveryFlow (location_params w)); reflexivity.
Qed.

(** X3.  The loading flag ends.  On a recovery page the mount turns it off
    at once.  Elsewhere the mount asks for the current session; when that
    is answered without a session the flag is turned off, and when it is
    answered with one, exactly one role lookup is scheduled, for that
    session's user, and the flag is off once the lookup has run, whatever
    the store answers. *)
Theorem loading_ends (w : World) (current : option Session) (roleData : option string) :
  let flow := eval useAuth.useEffect_mount w in
  let w1 := exec useAuth.useEffect_mount w in
  if flow then loading w1 = false ∧ issued useAuth.useEffect_mount w = []
  else
    issued useAuth.useEffect_mount w = [Auth getSession_call]
    ∧ match current with
      | None => loading (exec (useAuth.getSession_then None) w1) = false
      | Some s =>
          let lookup := fetch_user_role (Supabase.id (Supabase.user s)) in
          issued (useAuth.getSession_then (Some s)) w1 = [SetTimeout lookup 0]
          ∧ loading (exec (run_callback lookup roleData)
                       (exec (useAuth.getSession_then (Some s)) w1)) = false
      end.
Proof.
  cbv zeta. unfold issued at 1 2. unfold exec at 1 2 3 5 6, eval.
  rewrite useEffect_mount_result. simpl.
  destruct (useAuth.isRecoveryFlow (location_params w)) eqn:Hflow; simpl.
  - split; [reflexivity|]. apply drop_all.
  - split; [apply drop_app_length|].
    destruct current as [s|]; [split|].
    + apply issued_app. unfold useAuth.getSession_then. run. reflexivity.
    + reflexivity.
    + reflexivity.
Qed.

(** X4.  Outside a recovery flow an event that carries a session schedules
    one role lookup for that session's user.  When the lookup has run, the
    main page shows the admin panel exactly when the store answered the
    role [admin]; any other answer, or none, gives the referrer dashboard. *)
Theorem role_lookup_decides_panel (JSON_stringify : Js.value → string) (w : World)
    (event : string) (s : Session) (answer : option AuthError) (roleData : option string) :
  let lookup := fetch_user_role (Supabase.id (Supabase.user s)) in
  let listener := useAuth.onAuthStateChange JSON_stringify false event (Some s) answer in
  let w2 := exec (run_callback lookup roleData) (exec listener w) in
  issued listener w = [SetTimeout lookup 0]
  ∧ issued (run_callback lookup roleData) (exec listener w)
    = [Store (select_role (Supabase.id (Supabase.user s)))]
  ∧ ∃ panel,
      Index.render w2 = Index.main (userRole w2) panel
      ∧ (panel = Index.admin_panel ↔ roleData = Some "admin").
Proof.
  cbv zeta. split; [|split].
  - apply issued_app. unfold useAuth.onAuthStateChange. run. reflexivity.
  - apply issued_app. unfold run_callback, useAuth.fetchUserRole. run. reflexivity.
  - unfold Index.render, run_callback, useAuth.fetchUserRole, useAuth.onAuthStateChange.
    run. eexists. split; [reflexivity|].
    destruct roleData as [role|]; simpl.
    + destruct (Js.string_truthy role) eqn:Htruthy; simpl.
      * destruct (bool_decide (Some role = Some "admin")) eqn:Hdec.
        -- apply bool_decide_eq_true in Hdec. tauto.
        -- apply bool_decide_eq_false in Hdec. split; [discriminate|tauto].
      * split; [discriminate|]. intros [= ->]. discriminate Htruthy.
    + split; discriminate.
Qed.

(** *** The guards of the pages *)

(** X5.  The guards of the pages never send a visitor back and forth.  With
    a user the sign-in page redirects to the main page, which does not
    redirect; without one the main page shows the spinner or redirects to
    the sign-in page, which then shows its card.  The reset page redirects
    to the main page only with a user. *)
Theorem guards_do_not_loop (w : World) (ast : Auth.State) (rst : ResetPassword.State) :
  match user w with
  | Some _ =>
      Auth.render ast w = Auth.Navigate "/"
      ∧ Index.render w ≠ Index.Navigate "/auth"
  | None =>
      Auth.render ast w = Auth.card (Auth.showForgotPassword ast)
      ∧ (Index.render w = Index.spinner ∨ Index.render w = Index.Navigate "/auth")
      ∧ ResetPassword.render rst w ≠ ResetPassword.Navigate "/"
  end.
Proof.
  unfold Auth.render, Index.render, ResetPassword.render.
  destruct (user w) as [u|]; simpl.
  - split; [reflexivity|]. destruct (loading w); discriminate.
  - split; [reflexivity|]. split; [destruct (loading w); auto|].
    destruct (ResetPassword.isSuccess rst); discriminate.
Qed.

(** X6.  The sign-out button of the main page: where the page shows it, a
    click makes one provider call, shows no notification, clears the
    adapter's cells, and the page then redirects to the sign-in page,
    whatever the provider answers; where the page does not show it,
    nothing happens. *)
Theorem sign_out_button (answer : option AuthError) (w : World) :
  match Index.render w with
  | Index.main _ _ =>
      issued (Index.click_sign_out answer) w = [Auth signOut_call]
      ∧ Index.render (exec (Index.click_sign_out answer) w) = Index.Navigate "/auth"
  | _ => exec (Index.click_sign_out answer) w = w
  end.
Proof.
  unfold exec at 2 3. unfold issued, exec. unfold Index.click_sign_out.
  destruct (Index.render w) eqn:Hview; try reflexivity.
  unfold Index.render in Hview.
  destruct (loading w) eqn:Hload; [discriminate|].
  unfold useAuth.signOut, useAuth.supabase_auth_signOut. run.
  rewrite drop_app_length. split; [reflexivity|].
  unfold Index.render. simpl. rewrite Hload. reflexivity.
Qed.

(** *** The sign-in page *)

(** X7.  The forgot-password handler closes the form and discards the typed
    address whether the provider accepts the request or reports an error;
    it makes one provider call, for the reset page of this origin, and
    shows one notification.  The sign-in and sign-up handlers change
    nothing of what was typed, on success and on failure alike.  All three
    end with the loading flag off. *)
Theorem auth_page_handlers (st : Auth.State) (w : World) :
  (∀ answer,
      let m := Auth.handleForgotPassword answer st in
      Auth.showForgotPassword (eval m w) = false
      ∧ Auth.forgotPasswordEmail (eval m w) = ""
      ∧ Auth.isLoading (eval m w) = false
      ∧ Auth.signInData (eval m w) = Auth.signInData st
      ∧ Auth.signUpData (eval m w) = Auth.signUpData st
      ∧ provider_calls (issued m w)
        = [resetPasswordForEmail_call (Auth.forgotPasswordEmail st)
             (location_origin w +:+ "/reset-password")]
      ∧ variant <$> notifications (issued m w) = [outcome_variant answer])
  ∧ (∀ answer,
      let m := Auth.handleSignIn answer st in
      eval m w = Auth.set_isLoading false st
      ∧ provider_calls (issued m w)
        = [signInWithPassword_call (Auth.signIn_email (Auth.signInData st))
             (Auth.signIn_password (Auth.signInData st))])
  ∧ (∀ answer,
      let m := Auth.handleSignUp answer st in
      eval m w = Auth.set_isLoading false st
      ∧ provider_calls (issued m w)
        = [signUp_call (Auth.signUp_email (Auth.signUpData st))
             (Auth.signUp_password (Auth.signUpData st))
             (location_origin w +:+ "/") (Auth.signUp_name (Auth.signUpData st))]).
Proof.
  split; [|split].
  - intros [e|]; cbv zeta;
      (repeat split;
       try (sent ltac:(unfold Auth.handleForgotPassword, useAuth.resetPassword,
                         useAuth.supabase_auth_resetPasswordForEmail));
       reflexivity).
  - intros [e|]; cbv zeta;
      (split;
       [destruct st; reflexivity
       |sent ltac:(unfold Auth.handleSignIn, useAuth.signIn,
                     useAuth.supabase_auth_signInWithPassword); reflexivity]).
  - intros [[u|] [s|]|e]; cbv zeta;
      (split;
       [destruct st; reflexivity
       |sent ltac:(unfold Auth.handleSignUp, useAuth.signUp,
                     useAuth.supabase_auth_signUp); reflexivity]).
Qed.

(** X8.  The sign-in page sends nothing for an incomplete form: a sign-in
    without an address or without a password, a sign-up without a name, an
    address or a password, and a reset request without an address leave the
    page and the world as they are.  Nor does it send anything for a
    visitor who is already signed in. *)
Theorem auth_page_incomplete_forms (email_input_valid : string → bool)
    (st : Auth.State) (w : World) :
  (Auth.signIn_email (Auth.signInData st) = ""
   ∨ Auth.signIn_password (Auth.signInData st) = ""
   ∨ is_Some (user w) →
   ∀ answer, Auth.submit_sign_in email_input_valid answer st w = (st, w))
  ∧ (Auth.signUp_name (Auth.signUpData st) = ""
     ∨ Auth.signUp_email (Auth.signUpData st) = ""
     ∨ Auth.signUp_password (Auth.signUpData st) = ""
     ∨ is_Some (user w) →
     ∀ answer, Auth.submit_sign_up email_input_valid answer st w = (st, w))
  ∧ (Auth.forgotPasswordEmail st = "" ∨ is_Some (user w) →
     ∀ answer, Auth.submit_forgot_password email_input_valid answer st w = (st, w)).
Proof.
  unfold Auth.submit_sign_in, Auth.submit_sign_up, Auth.submit_forgot_password,
    Auth.render, Auth.email_field_ok.
  split; [|split].
  - intros H answer. destruct (user w) as [u|]; [reflexivity|].
    destruct (Auth.showForgotPassword st); [reflexivity|].
    destruct H as [-> | [-> | [? ?]]]; [| |discriminate]; simpl;
      rewrite ?andb_false_r; reflexivity.
  - intros H answer. destruct (user w) as [u|]; [reflexivity|].
    destruct H as [-> | [-> | [-> | [? ?]]]]; [| | |discriminate]; simpl;
      rewrite ?andb_false_r; reflexivity.
  - intros H answer. destruct (user w) as [u|]; [reflexivity|].
    destruct (Auth.showForgotPassword st); [|reflexivity].
    destruct H as [-> | [? ?]]; [|discriminate]. simpl.
    rewrite ?andb_false_r. reflexivity.
Qed.

Lemma auth_page_incomplete_forms_witness :
  let w := Example.page "" [] in
  let st := Auth.set_forgotPasswordEmail "alice@example.com" Auth.initial in
  exec (Auth.submit_sign_in (λ _, true) None st) w = w
  ∧ exec (Auth.submit_sign_up (λ _, true) (AuthData None None) st) w = w
  ∧ exec (Auth.submit_forgot_password (λ _, true) None
            (Auth.set_showForgotPassword true Auth.initial)) w = w
  ∧ provider_calls
      (issued (Auth.submit_forgot_password (λ _, true) None
                 (Auth.set_showForgotPassword true st)) w)
    = [resetPasswordForEmail_call "alice@example.com" "https://app.example/reset-password"].
Proof.
  intros w st.
  destruct (auth_page_incomplete_forms (λ _, true) st w) as (Hin & Hup & _).
  destruct (auth_page_incomplete_forms (λ _, true)
              (Auth.set_showForgotPassword true Auth.initial) w) as (_ & _ & Hforgot).
  split; [|split; [|split]].
  - unfold exec. rewrite (Hin (or_introl eq_refl) None). reflexivity.
  - unfold exec. rewrite (Hup (or_introl eq_refl) (AuthData None None)). reflexivity.
  - unfold exec. rewrite (Hforgot (or_introl eq_refl) None). reflexivity.
  - vm_compute. reflexivity.
Defined.

(** *** The payment form *)


Lemma rendered_fields_item (method field : string) :
  field ∈ PaymentForm.rendered_fields method → method ∈ PaymentForm.items.
Proof.
  unfold PaymentForm.rendered_fields, PaymentForm.items.
  destruct (String.eqb method "zelle") eqn:Hz;
    [apply String.eqb_eq in Hz; subst; intros _; apply list_elem_of_here|].
  destruct (String.eqb method "paypal") eqn:Hp;
    [apply String.eqb_eq in Hp; subst; intros _;
     apply list_elem_of_further, list_elem_of_here|].
  destruct (String.eqb method "bank_transfer") eqn:Hb;
    [apply String.eqb_eq in Hb; subst; intros _;
     do 2 apply list_elem_of_further; apply list_elem_of_here|].
  intros H. apply not_elem_of_nil in H. contradiction.
Qed.





(** *** The row-level policies *)

(** The policy table agrees with the two [SELECT] policies of [referrals]
    that the listing is checked against. *)
Lemma admits_referrals_select (db : Store.Database) (uid : option string)
    (r : Store.referrals_row) :
  Policies.admits db uid Policies.referrals Policies.SELECT (Store.user_id r)
  = Store.referrals_select_policy db uid r.
Proof.
  unfold Policies.admits, Store.referrals_select_policy, Store.users_can_view_own,
    Store.admins_can_view_all. simpl.
  destruct (bool_decide (uid = Some (Store.user_id r)));
    destruct (Store.has_role db uid Store.admin); reflexivity.
Qed.

Ltac not_listed H :=
  repeat (apply elem_of_cons in H; destruct H as [H|H]; [discriminate H|]);
  apply not_elem_of_nil in H; exact H.

(** X10.  What a caller without the admin role may do.  The policies admit
    them on a row only when the row's [user_id] is their own id, and then
    only to read or update their profile, to read their role, and to read,
    insert or update their referrals.  So they can touch no other user's
    row, give no role to anyone, and delete nothing. *)
Theorem policies_without_admin_role (db : Store.Database) (uid : option string)
    (t : Policies.Table) (c : Policies.Command) (row_user_id : string) :
  Store.has_role db uid Store.admin = false →
  Policies.admits db uid t c row_user_id = true
  ↔ uid = Some row_user_id
    ∧ (t, c) ∈ [ (Policies.profiles, Policies.SELECT); (Policies.profiles, Policies.UPDATE);
                 (Policies.user_roles, Policies.SELECT);
                 (Policies.referrals, Policies.SELECT);
                 (Policies.referrals, Policies.INSERT);
                 (Policies.referrals, Policies.UPDATE) ].
Proof.
  intros Hrole. unfold Policies.admits. simpl. rewrite Hrole.
  destruct t, c; simpl; rewrite ?andb_false_r, ?orb_false_r; simpl;
    (split;
     [ intros H;
       first [ discriminate H
             | apply bool_decide_eq_true in H; split; [exact H|]; repeat constructor ]
     | intros [Hown Hin];
       first [ apply bool_decide_eq_true_2, Hown | exfalso; not_listed Hin ] ]).
Qed.

Lemma policies_without_admin_role_witness :
  Policies.admits Example.db (Some "user-alice") Policies.referrals Policies.INSERT
    "user-alice" = true
  ∧ Policies.admits Example.db (Some "user-alice") Policies.referrals Policies.UPDATE
      "user-bob" = false
  ∧ Policies.admits Example.db (Some "user-alice") Policies.user_roles Policies.INSERT
      "user-alice" = false.
Proof.
  assert (Store.has_role Example.db (Some "user-alice") Store.admin = false) as Hrole
    by reflexivity.
  split; [|split].
  - apply (policies_without_admin_role Example.db (Some "user-alice") Policies.referrals
             Policies.INSERT "user-alice" Hrole).
    split; [reflexivity|]. do 4 apply list_elem_of_further. apply list_elem_of_here.
  - apply not_true_is_false. intros H.
    apply (policies_without_admin_role Example.db (Some "user-alice") Policies.referrals
             Policies.UPDATE "user-bob" Hrole) in H as [H _]. discriminate H.
  - apply not_true_is_false. intros H.
    apply (policies_without_admin_role Example.db (Some "user-alice") Policies.user_roles
             Policies.INSERT "user-alice" Hrole) in H as [_ H].
    not_listed H.
Defined.

(** X11.  What no caller may do, and what an admin may.  No policy admits
    deleting a profile or a referral, or inserting a profile, whoever asks;
    a caller who is not signed in is admitted to nothing at all; and a
    caller with the admin role is admitted to every other command on every
    row. *)
Theorem policies_for_everyone (db : Store.Database) (uid : option string)
    (row_user_id : string) :
  Policies.admits db uid Policies.profiles Policies.DELETE row_user_id = false
  ∧ Policies.admits db uid Policies.referrals Policies.DELETE row_user_id = false
  ∧ Policies.admits db uid Policies.profiles Policies.INSERT row_user_id = false
  ∧ (∀ t c, Policies.admits db None t c row_user_id = false)
  ∧ (Store.has_role db uid Store.admin = true →
     ∀ t c,
       (t, c) ∉ [ (Policies.profiles, Policies.DELETE); (Policies.referrals, Policies.DELETE);
                  (Policies.profiles, Policies.INSERT) ] →
       Policies.admits db uid t c row_user_id = true).
Proof.
  unfold Policies.admits. simpl. repeat split.
  - intros t c. destruct t, c; reflexivity.
  - intros Hrole t c Hnot. rewrite Hrole.
    destruct t, c; simpl; rewrite ?orb_true_r; try reflexivity;
      exfalso; apply Hnot; repeat constructor.
Qed.

(** *** The sign-up trigger *)

Lemma has_role_app (db : Store.Database) (extra : list Store.user_roles_row)
    (uid : option string) (r : Store.app_role) :
  Store.has_role {| Store.user_roles := Store.user_roles db ++ extra;
                    Store.referrals := Store.referrals db;
                    Store.profiles := Store.profiles db |} uid r
  = Store.has_role db uid r
    || Store.has_role {| Store.user_roles := extra; Store.referrals := [];
                         Store.profiles := [] |} uid r.
Proof.
  unfold Store.has_role. destruct uid as [u|]; [|reflexivity]. simpl.
  apply existsb_app.
Qed.

(** X12.  A sign-up the trigger accepts makes the new user a referrer with
    one profile, named by the [name] of the new user's metadata ([User] when
    the metadata has none), and nothing else: nobody gains or loses the admin role, other
    users' roles are as before, and the referrals are untouched, so the new
    user's listing shows no rows but those already under their id. *)
Theorem sign_up_trigger (db db' : Store.Database) (new_id : string)
    (meta_name : option string) (profile_uuid : string) (now : Z) :
  Trigger.handle_new_user db new_id meta_name profile_uuid now = Some db' →
  Store.has_role db' (Some new_id) Store.referrer = true
  ∧ (∀ uid, Store.has_role db' uid Store.admin = Store.has_role db uid Store.admin)
  ∧ (∀ uid r, uid ≠ Some new_id → Store.has_role db' uid r = Store.has_role db uid r)
  ∧ Store.referrals db' = Store.referrals db
  ∧ Store.name <$> filter (λ p, Store.profile_user_id p = new_id) (Store.profiles db')
    = [default "User" meta_name].
Proof.
  unfold Trigger.handle_new_user.
  destruct (existsb _ (Store.profiles db)) eqn:Hprofile; [discriminate|].
  destruct (existsb _ (Store.user_roles db)) eqn:Hroles; [discriminate|].
  intros [= <-]. split; [|split; [|split; [|split]]].
  - unfold Store.has_role. simpl. rewrite existsb_app. simpl.
    rewrite !bool_decide_eq_true_2 by reflexivity. apply orb_true_r.
  - intros uid. unfold Store.has_role. destruct uid as [u|]; [|reflexivity]. simpl.
    rewrite existsb_app. simpl. rewrite andb_false_r. simpl. apply orb_false_r.
  - intros uid r Hne. unfold Store.has_role. destruct uid as [u|]; [|reflexivity]. simpl.
    rewrite existsb_app. simpl.
    rewrite (bool_decide_eq_false_2 (new_id = u)) by congruence.
    simpl. apply orb_false_r.
  - reflexivity.
  - simpl. rewrite filter_app. simpl.
    assert (filter (λ p, Store.profile_user_id p = new_id) (Store.profiles db) = [])
      as ->.
    { clear Hroles. induction (Store.profiles db) as [|p ps IH]; [reflexivity|].
      simpl in Hprofile. apply orb_false_iff in Hprofile as [Hp Hps].
      apply orb_false_iff in Hp as [_ Hp]. apply bool_decide_eq_false in Hp.
      rewrite filter_cons_False by exact Hp. apply IH, Hps. }
    rewrite filter_cons_True by reflexivity. reflexivity.
Qed.

Lemma sign_up_trigger_witness :
  ∃ db', Trigger.handle_new_user Example.db "user-dan" None "profile-9" 400 = Some db'
    ∧ Store.has_role db' (Some "user-dan") Store.referrer = true
    ∧ Store.has_role db' (Some "user-dan") Store.admin = false
    ∧ Store.name <$> Store.profiles db' = ["User"]
    ∧ Store.referrals_of_user db' (Some "user-dan") "user-dan" = [].
Proof.
  eexists. split; [reflexivity|].
  destruct (sign_up_trigger Example.db _ "user-dan" None "profile-9" 400 eq_refl)
    as (Hreferrer & Hadmin & _).
  split; [exact Hreferrer|]. split; [rewrite Hadmin; reflexivity|].
  split; reflexivity.
Defined.

(** *** What the forms insert, against the insert policies *)

(** X13.  The referrer dashboard inserts under the signed-in user's own id,
    so the insert policies admit its row for that caller in every state of
    the tables, admin or not.  The admin panel inserts under the selected
    user's id: the policies admit that row exactly when the caller is that
    user or has the admin role. *)
Theorem inserts_against_policies (db : Store.Database) (caller : User) (w : World) :
  user w = Some caller →
  (∀ insert_error fetch_answer (st : ReferrerDashboard.State),
      ∃ row rest,
        store_requests (issued (ReferrerDashboard.handleAddReferral insert_error
                                  fetch_answer st) w)
        = insert_referral row :: rest
        ∧ insert_user_id row = Some (Supabase.id caller)
        ∧ Policies.insert_admitted db (Some (Supabase.id caller)) row = true)
  ∧ (∀ insert_error profiles_answer referrals_answer (st : AdminPanel.State),
      ∃ row rest,
        store_requests (issued (AdminPanel.handleAddReferral insert_error
                                  profiles_answer referrals_answer st) w)
        = insert_referral row :: rest
        ∧ insert_user_id row = Some (AdminPanel.newReferral_user_id st)
        ∧ (Policies.insert_admitted db (Some (Supabase.id caller)) row = true
           ↔ Supabase.id caller = AdminPanel.newReferral_user_id st
             ∨ Store.has_role db (Some (Supabase.id caller)) Store.admin = true)).
Proof.
  intros Huser. split.
  - intros insert_error [d e] st.
    exists {| insert_user_id := Some (Supabase.id caller);
              insert_form := ReferrerDashboard.newReferral st |}.
    exists (match insert_error with
            | Some _ => []
            | None => [select_referrals_eq_user (Some (Supabase.id caller))]
            end).
    split; [|split].
    + destruct insert_error as [err|]; [|destruct e as [err|]];
        (erewrite issued_app;
         [|unfold ReferrerDashboard.handleAddReferral, ReferrerDashboard.fetchReferrals;
           run; rewrite Huser; simpl; rewrite <- ?app_assoc; reflexivity]);
        reflexivity.
    + reflexivity.
    + unfold Policies.insert_admitted, Policies.admits. simpl.
      rewrite bool_decide_eq_true_2 by reflexivity. reflexivity.
  - intros insert_error profiles_answer [d e] st.
    exists {| insert_user_id := Some (AdminPanel.newReferral_user_id st);
              insert_form := AdminPanel.newReferral st |}.
    exists (match insert_error with
            | Some _ => []
            | None => [select_profiles_all; select_referrals_all]
            end).
    split; [|split].
    + destruct insert_error as [err|]; [|destruct e as [err|]];
        (erewrite issued_app;
         [|unfold AdminPanel.handleAddReferral, AdminPanel.fetchData;
           run; rewrite <- ?app_assoc; reflexivity]);
        reflexivity.
    + reflexivity.
    + unfold Policies.insert_admitted, Policies.admits. simpl.
      rewrite orb_false_r, orb_true_iff, bool_decide_eq_true.
      split; (intros [H|H]; [left; congruence|right; exact H]).
Qed.

Lemma inserts_against_policies_witness :
  let w := set_user (Some Example.alice) (Example.page "" []) in
  let rst := {| ReferrerDashboard.referrals := []; ReferrerDashboard.loading := false;
                ReferrerDashboard.newReferral :=
                  {| client_name := "Kim"; client_email := ""; client_phone := "";
                     client_address := "" |};
                ReferrerDashboard.isAdding := false |} in
  let for_bob := {| insert_user_id := Some "user-bob";
                    insert_form := ReferrerDashboard.newReferral rst |} in
  (∃ row rest,
      store_requests (issued (ReferrerDashboard.handleAddReferral None
                                (Store.answered []) rst) w)
      = insert_referral row :: rest
      ∧ insert_user_id row = Some "user-alice"
      ∧ Policies.insert_admitted Example.db (Some "user-alice") row = true)
  ∧ Policies.insert_admitted Example.db (Some "user-alice") for_bob = false
  ∧ Policies.insert_admitted Example.db (Some "user-carol") for_bob = true.
Proof.
  intros w rst for_bob.
  destruct (inserts_against_policies Example.db Example.alice w eq_refl) as [Hown _].
  split; [exact (Hown None (Store.answered []) rst)|].
  split; vm_compute; reflexivity.
Defined.

(** *** The figures of the dashboards *)

Lemma own_rows_visible (db : Store.Database) (u : string) :
  filter (λ r, Store.user_id r = u) (Store.visible_referrals db (Some u))
  = filter (λ r, Store.user_id r = u) (Store.referrals db).
Proof.
  unfold Store.visible_referrals.
  induction (Store.referrals db) as [|r rows IH]; [reflexivity|].
  destruct (decide (Store.user_id r = u)) as [Hu|Hu].
  - rewrite (filter_cons_True (λ r, Store.referrals_select_policy db (Some u) r = true)).
    + rewrite !(filter_cons_True (λ r, Store.user_id r = u)) by exact Hu.
      f_equal. exact IH.
    + unfold Store.referrals_select_policy, Store.users_can_view_own.
      rewrite Hu, bool_decide_eq_true_2 by reflexivity. reflexivity.
  - rewrite (filter_cons_False (λ r, Store.user_id r = u) r rows) by exact Hu.
    rewrite <- IH.
    destruct (decide (Store.referrals_select_policy db (Some u) r = true)) as [Hv|Hv].
    + rewrite (filter_cons_True _ r rows Hv).
      rewrite (filter_cons_False (λ r, Store.user_id r = u)) by exact Hu. reflexivity.
    + rewrite (filter_cons_False _ r rows Hv). reflexivity.
Qed.

(** X14.  The bonus the referrer dashboard shows for the listing of a caller
    is 500 times the number of that caller's own paid referrals in the
    table: no other user's row and no unpaid row counts, and the order of
    the listing does not matter. *)
Theorem bonus_counts_own_paid_rows (db : Store.Database) (u : string) :
  bonus_earned (Store.referrals_of_user db (Some u) u)
  = length (filter (λ r, Store.bonus_status r = Store.Paid)
              (filter (λ r, Store.user_id r = u) (Store.referrals db))) * 500.
Proof.
  unfold bonus_earned, Store.referrals_of_user, Store.order_created_at_desc.
  f_equal. rewrite merge_sort_Permutation, own_rows_visible. reflexivity.
Qed.

Lemma user_referral_count_fst (l : list (Store.referrals_row * string)) (u : string) :
  user_referral_count l u = length (filter (λ r, Store.user_id r = u) l.*1).
Proof.
  unfold user_referral_count.
  induction l as [|[a b] l IH]; [reflexivity|]. simpl.
  destruct (decide (Store.user_id a = u)) as [Ha|Ha].
  - rewrite (filter_cons_True (λ r : Store.referrals_row * string, Store.user_id r.1 = u))
      by exact Ha.
    rewrite (filter_cons_True (λ r, Store.user_id r = u)) by exact Ha.
    simpl. f_equal. exact IH.
  - rewrite (filter_cons_False (λ r : Store.referrals_row * string, Store.user_id r.1 = u))
      by exact Ha.
    rewrite (filter_cons_False (λ r, Store.user_id r = u)) by exact Ha. exact IH.
Qed.

Lemma referral_entries_fst (f : Store.referrals_row → option string)
    (l : list Store.referrals_row) :
  (AdminPanel.referral_entry <$> ((λ r, (r, f r)) <$> l)).*1 = l.
Proof. induction l as [|r l IH]; simpl; [reflexivity|]. f_equal. exact IH. Qed.

(** X15.  For a caller with the admin role, the number of referrals the
    users tab shows beside a user, computed from the panel's listing, is
    the number of rows of the table under that user's id. *)
Theorem admin_counts_rows_of_user (db : Store.Database) (uid : option string)
    (profiles_answer : Store.Answer (list Store.profiles_row))
    (st : AdminPanel.State) (w : World) (u : string) :
  Store.has_role db uid Store.admin = true →
  let listing := Store.answered (Store.referrals_with_profiles db uid) in
  let st' := eval (AdminPanel.fetchData profiles_answer listing st) w in
  user_referral_count (AdminPanel.referrals st') u
  = length (filter (λ r, Store.user_id r = u) (Store.referrals db)).
Proof.
  intros Hadmin. cbv zeta. unfold AdminPanel.fetchData. run.
  rewrite user_referral_count_fst.
  assert ((AdminPanel.referral_entry <$> Store.referrals_with_profiles db uid).*1
          ≡ₚ Store.referrals db) as ->; [|reflexivity].
  unfold Store.referrals_with_profiles. rewrite referral_entries_fst.
  unfold Store.order_created_at_desc. rewrite merge_sort_Permutation.
  unfold Store.visible_referrals. rewrite filter_all; [reflexivity|].
  intros r _. unfold Store.referrals_select_policy, Store.admins_can_view_all.
  rewrite Hadmin. apply orb_true_r.
Qed.

Lemma admin_counts_rows_of_user_witness :
  let st := {| AdminPanel.users := []; AdminPanel.referrals := [];
               AdminPanel.loading := true; AdminPanel.newReferral_user_id := "";
               AdminPanel.newReferral := empty_form; AdminPanel.isAdding := false |} in
  let listing := Store.answered (Store.referrals_with_profiles Example.db (Some "user-carol")) in
  let st' := eval (AdminPanel.fetchData (Store.answered []) listing st)
               (Example.page "" []) in
  user_referral_count (AdminPanel.referrals st') "user-alice" = 2
  ∧ snd <$> AdminPanel.referrals st' = ["Unknown User"; "Unknown User"; "Unknown User"].
Proof.
  intros st listing st'.
  split; [|vm_compute; reflexivity].
  unfold st', listing.
  rewrite (admin_counts_rows_of_user Example.db (Some "user-carol") (Store.answered [])
             st (Example.page "" []) "user-alice" eq_refl).
  reflexivity.
Defined.

(** *** The reset page's handler *)

(** X16.  The handler checks before it sends.  When the two inputs differ
    it reports that they do not match, also when both are too short; when
    they agree but have fewer than six characters (the empty password
    among them) it reports the minimum length.  Characters are counted as
    [password.length] counts them, in UTF-16 code units, so three
    ideographs of three bytes each are too short.  In both cases nothing
    is sent or stored, the loading flag is not touched, and the page still
    shows what it showed apart from the message. *)
Theorem reset_handler_validates_first (JSON_parse : string → option Js.value)
    (updateUser_answer signOut_answer : option AuthError)
    (st : ResetPassword.State) (w : World) :
  let m := ResetPassword.handlePasswordReset JSON_parse updateUser_answer
             signOut_answer st in
  (ResetPassword.password st ≠ ResetPassword.confirmPassword st →
   m w = (ResetPassword.set_error "Passwords do not match" st, w))
  ∧ (ResetPassword.password st = ResetPassword.confirmPassword st →
     (Js.length (ResetPassword.password st) < 6)%nat →
     m w = (ResetPassword.set_error "Password must be at least 6 characters long" st, w)).
Proof.
  cbv zeta. unfold ResetPassword.handlePasswordReset. split.
  - intros Hne. apply String.eqb_neq in Hne. rewrite Hne. reflexivity.
  - intros Heq Hlen. apply String.eqb_eq in Heq. rewrite Heq. simpl.
    apply Nat.ltb_lt in Hlen. rewrite Hlen. reflexivity.
Qed.

Lemma reset_handler_validates_first_witness :
  let w := set_localStorage (insert "recovery_session" Example.recovery_text)
             (Example.page "?type=recovery" [("type", "recovery")]) in
  let short := ResetPassword.set_confirmPassword "abc"
                 (ResetPassword.set_password "abc" ResetPassword.initial) in
  let wide := ResetPassword.set_confirmPassword "日本語"
                (ResetPassword.set_password "日本語" ResetPassword.initial) in
  let differ := ResetPassword.set_confirmPassword "correct horse"
                  (ResetPassword.set_password "abc" ResetPassword.initial) in
  exec (ResetPassword.handlePasswordReset Example.JSON_parse None None short) w = w
  ∧ ResetPassword.error
      (eval (ResetPassword.handlePasswordReset Example.JSON_parse None None short) w)
    = "Password must be at least 6 characters long"
  ∧ exec (ResetPassword.handlePasswordReset Example.JSON_parse None None wide) w = w
  ∧ ResetPassword.error
      (eval (ResetPassword.handlePasswordReset Example.JSON_parse None None wide) w)
    = "Password must be at least 6 characters long"
  ∧ exec (ResetPassword.handlePasswordReset Example.JSON_parse None None differ) w = w
  ∧ ResetPassword.error
      (eval (ResetPassword.handlePasswordReset Example.JSON_parse None None differ) w)
    = "Passwords do not match".
Proof.
  intros w short wide differ.
  destruct (reset_handler_validates_first Example.JSON_parse None None short w)
    as [_ Hshort].
  destruct (reset_handler_validates_first Example.JSON_parse None None wide w)
    as [_ Hwide].
  destruct (reset_handler_validates_first Example.JSON_parse None None differ w)
    as [Hdiffer _].
  unfold exec, eval.
  rewrite (Hshort eq_refl ltac:(vm_compute; lia)), (Hwide eq_refl ltac:(vm_compute; lia)),
    (Hdiffer ltac:(discriminate)).
  repeat split.
Defined.

(** X17.  When [updatePassword] returns an error, the handler signs nobody
    out and schedules no redirect: it sends nothing beyond what
    [updatePassword] sent, leaves the adapter's cells alone, turns the
    loading flag off, keeps the success flag off, and shows the error's
    message, or a fixed text when the message is empty. *)
Theorem reset_handler_failure (JSON_parse : string → option Js.value)
    (updateUser_answer signOut_answer : option AuthError)
    (st : ResetPassword.State) (w : World) (e : AuthError) :
  ResetPassword.password st = ResetPassword.confirmPassword st →
  (6 ≤ Js.length (ResetPassword.password st))%nat →
  eval (useAuth.updatePassword JSON_parse (ResetPassword.password st) updateUser_answer) w
    = Some e →
  let update := useAuth.updatePassword JSON_parse (ResetPassword.password st)
                  updateUser_answer in
  let m := ResetPassword.handlePasswordReset JSON_parse updateUser_answer signOut_answer st in
  exec m w = exec update w
  ∧ (user (exec m w), session (exec m w), userRole (exec m w))
    = (user w, session w, userRole w)
  ∧ ResetPassword.isSuccess (eval m w) = ResetPassword.isSuccess st
  ∧ ResetPassword.isLoading (eval m w) = false
  ∧ ResetPassword.error (eval m w)
    = (if Js.string_truthy (message e) then message e else "Failed to update password").
Proof.
  intros Hsame Hlen Herr. cbv zeta.
  assert (ResetPassword.handlePasswordReset JSON_parse updateUser_answer signOut_answer st w
          = (ResetPassword.set_isLoading false
               (ResetPassword.set_error
                  (if Js.string_truthy (message e) then message e
                   else "Failed to update password")
                  (ResetPassword.set_error "" (ResetPassword.set_isLoading true st))),
             exec (useAuth.updatePassword JSON_parse (ResetPassword.password st)
                     updateUser_answer) w)) as Hrun.
  { unfold ResetPassword.handlePasswordReset.
    apply Nat.ltb_ge in Hlen. rewrite Hlen.
    apply String.eqb_eq in Hsame. rewrite Hsame. simpl.
    unfold eval, exec in *. unfold mbind, M_bind at 1. simpl.
    destruct (useAuth.updatePassword JSON_parse (ResetPassword.password st)
                updateUser_answer w) as [r w1] eqn:E.
    simpl in Herr. subst r. reflexivity. }
  destruct (updatePassword_cells JSON_parse (ResetPassword.password st)
              updateUser_answer w) as (Hu & Hs & Hr & _).
  assert (exec (ResetPassword.handlePasswordReset JSON_parse updateUser_answer
                  signOut_answer st) w
          = exec (useAuth.updatePassword JSON_parse (ResetPassword.password st)
                    updateUser_answer) w) as Hw.
  { unfold exec at 1. rewrite Hrun. reflexivity. }
  unfold eval. rewrite !Hw, Hrun, Hu, Hs, Hr. repeat split.
Qed.

Lemma reset_handler_failure_witness :
  let w := Example.page "?type=recovery" [("type", "recovery")] in
  let st := ResetPassword.set_confirmPassword "correct horse"
              (ResetPassword.set_password "correct horse" ResetPassword.initial) in
  let m := ResetPassword.handlePasswordReset Example.JSON_parse None None st in
  issued m w = [Toasted {| title := "Password update failed";
                          description := "No valid session found for password reset";
                          variant := destructive |}]
  ∧ ResetPassword.error (eval m w) = "No valid session found for password reset"
  ∧ ResetPassword.render (eval m w) (exec m w)
    = ResetPassword.reset_card (Some "No valid session found for password reset")
        ResetPassword.password_form.
Proof.
  intros w st m.
  destruct (reset_handler_failure Example.JSON_parse None None st w
              useAuth.no_valid_session_error) as (Hw & _ & _ & _ & Herror).
  - reflexivity.
  - vm_compute. lia.
  - reflexivity.
  - split; [vm_compute; reflexivity|]. split; [exact Herror|]. vm_compute. reflexivity.
Defined.

(** *** The lists of the admin panel *)

(** X18.  [fetchData] asks for the profiles and then for the referrals, and
    ends the loading state either way.  An error of the referrals request
    is reported once and leaves both lists as they were, whatever the
    profiles request answered.  An error of the profiles request alone is
    not reported: the lists are replaced and no notification is shown.  In
    a replaced listing every referral carries a referrer name that is not
    empty. *)
Theorem admin_fetchData (profiles_answer : Store.Answer (list Store.profiles_row))
    (referrals_answer : Store.Answer (list (Store.referrals_row * option string)))
    (st : AdminPanel.State) (w : World) :
  let m := AdminPanel.fetchData profiles_answer referrals_answer st in
  store_requests (issued m w) = [select_profiles_all; select_referrals_all]
  ∧ AdminPanel.loading (eval m w) = false
  ∧ match Store.error referrals_answer with
    | Some _ =>
        AdminPanel.users (eval m w) = AdminPanel.users st
        ∧ AdminPanel.referrals (eval m w) = AdminPanel.referrals st
        ∧ variant <$> notifications (issued m w) = [destructive]
    | None =>
        notifications (issued m w) = []
        ∧ AdminPanel.users (eval m w)
          = AdminPanel.user_entry <$> default [] (Store.data profiles_answer)
        ∧ (AdminPanel.referrals (eval m w)).*1
          = (default [] (Store.data referrals_answer)).*1
        ∧ ∀ entry, entry ∈ AdminPanel.referrals (eval m w) → entry.2 ≠ ""
    end.
Proof.
  cbv zeta. destruct referrals_answer as [d [e|]]; simpl.
  - repeat split; try (sent ltac:(unfold AdminPanel.fetchData)); reflexivity.
  - split; [sent ltac:(unfold AdminPanel.fetchData); reflexivity|].
    split; [reflexivity|].
    split; [sent ltac:(unfold AdminPanel.fetchData); reflexivity|].
    split; [reflexivity|].
    unfold AdminPanel.fetchData. run. split.
    + induction (default [] d) as [|[r n] l IH]; simpl; [reflexivity|]. f_equal. exact IH.
    + intros entry Hin. apply list_elem_of_fmap in Hin as ([r n] & -> & _).
      unfold AdminPanel.referral_entry. simpl.
      destruct n as [n|]; [|discriminate].
      destruct (Js.string_truthy n) eqn:Hn; [|discriminate].
      unfold Js.string_truthy in Hn. apply negb_true_iff, String.eqb_neq in Hn. exact Hn.
Qed.

(** *** After an add *)


(** *** A profile that could not be loaded *)

Lemma payment_steps_profile (evs : list PaymentForm.Event) (st : PayoutDashboard.State) :
  PayoutDashboard.userProfile (PaymentForm.steps evs st) = PayoutDashboard.userProfile st.
Proof.
  revert st. induction evs as [|ev rest IH]; intros st; [reflexivity|].
  unfold PaymentForm.steps in *. simpl. rewrite IH.
  destruct ev as [value|field value]; simpl.
  - destruct (bool_decide _); reflexivity.
  - destruct (bool_decide _); [|reflexivity].
    unfold PaymentForm.onChange. destruct (String.eqb _ _); reflexivity.
Qed.

(** X20.  When the profile request fails, nothing tells the user: no
    notification is shown and the dashboard keeps no profile.  From then
    on, whatever method they pick and whatever they type, saving the
    payment details does nothing at all: no request, no notification. *)
Theorem unloaded_profile_cannot_be_saved (answer : Store.Answer Store.profiles_row)
    (st : PayoutDashboard.State) (w : World) (evs : list PaymentForm.Event) :
  PayoutDashboard.userProfile st = None →
  is_Some (Store.error answer) →
  let fetch := PayoutDashboard.fetchUserProfile answer st in
  notifications (issued fetch w) = []
  ∧ eval fetch w = st
  ∧ ∀ update_error fetch_answer w',
      PayoutDashboard.handleSavePaymentDetails update_error fetch_answer
        (PaymentForm.steps evs (eval fetch w)) w'
      = (PaymentForm.steps evs (eval fetch w), w').
Proof.
  intros Hnone [e He]. cbv zeta. destruct answer as [d err]. simpl in He. subst err.
  split; [sent ltac:(unfold PayoutDashboard.fetchUserProfile); reflexivity|].
  split; [reflexivity|].
  intros update_error fetch_answer w'.
  unfold PayoutDashboard.handleSavePaymentDetails.
  rewrite payment_steps_profile. unfold eval. simpl. rewrite Hnone. reflexivity.
Qed.

Lemma unloaded_profile_cannot_be_saved_witness :
  let st := {| PayoutDashboard.userProfile := None; PayoutDashboard.paymentMethod := "";
               PayoutDashboard.paymentDetails := Js.Obj [];
               PayoutDashboard.isSavingPayment := false |} in
  let w := set_user (Some Example.alice) (Example.page "" []) in
  let failed := {| Store.data := None;
                   Store.error := Some {| Store.store_message := "timeout" |} |} in
  let st' := PaymentForm.steps [PaymentForm.pick "paypal";
                                PaymentForm.type_into "email" "alice@example.com"]
               (eval (PayoutDashboard.fetchUserProfile failed st) w) in
  PayoutDashboard.paymentDetails st' = Js.Obj [("email", Js.Str "alice@example.com")]
  ∧ PayoutDashboard.handleSavePaymentDetails None (Store.answered
      {| Store.profile_id := "profile-1"; Store.profile_user_id := "user-alice";
         Store.name := "Alice"; Store.payment_method := None;
         Store.payment_details := Js.Null; Store.profile_created_at := 10 |}) st' w
    = (st', w).
Proof.
  intros st w failed st'.
  destruct (unloaded_profile_cannot_be_saved failed st w
              [PaymentForm.pick "paypal";
               PaymentForm.type_into "email" "alice@example.com"])
    as (_ & _ & Hsave).
  - reflexivity.
  - eexists. reflexivity.
  - split; [vm_compute; reflexivity|]. apply Hsave.
Defined.
